(** * Patchy: GitHub webhook to Discord relay

    A shallow embedding of [webhook_server.py] and [discord_bot.py]:
    signature verification, the six embed builders, the dispatcher and the
    [POST /webhook] endpoint, with the properties the specification states
    about them. *)

From Stdlib Require Import String Ascii NArith ZArith Bool Lia PrimFloat DecimalString.
From Stdlib.Strings Require Import Byte.
From Stdlib Require Import List.
Import ListNotations.
Local Open Scope list_scope.

Set Implicit Arguments.
Set Warnings "-register-all".

(** ** Python values *)

(** A Python [str] is a sequence of Unicode code points, a [bytes] object a
    sequence of octets. *)
Definition str := list N.
Definition bytes := list byte.

(** A string literal of the source, character by character. *)
Definition lit (s : string) : str :=
  map N_of_ascii (list_ascii_of_string s).
Arguments lit s%_string.

Fixpoint str_eqb (a b : str) : bool :=
  match a, b with
  | [], [] => true
  | x :: a', y :: b' => N.eqb x y && str_eqb a' b'
  | _, _ => false
  end.

(** The exception classes the modelled code can meet.  All of them derive
    from [Exception]; [Forbidden] derives from [HTTPException]. *)
Inductive exn :=
| AttributeError | TypeError | KeyError | IndexError
| UnicodeEncodeError | UnicodeDecodeError | JSONDecodeError
| Forbidden | DiscordHTTPException | OtherError.

(** A computation that returns a value or raises. *)
Inductive Exc (A : Type) :=
| Ok (a : A)
| Raise (e : exn).
Arguments Ok {A} a.
Arguments Raise {A} e.

Definition bind {A B} (m : Exc A) (k : A -> Exc B) : Exc B :=
  match m with
  | Ok a => k a
  | Raise e => Raise e
  end.

Declare Scope exc_scope.
Delimit Scope exc_scope with exc.
Notation "x <- m ;; k" := (bind m (fun x => k))
  (at level 61, m at next level, right associativity) : exc_scope.
Open Scope exc_scope.

(** [try: m  except Exception: h]. *)
Definition try_except {A} (m : Exc A) (h : exn -> A) : A :=
  match m with
  | Ok a => a
  | Raise e => h e
  end.

(** ** hashlib.sha256 (FIPS 180-4) on 32-bit words held in [N] *)

Module SHA256.

Definition w32 (x : N) : N := N.land x 0xFFFFFFFF.
Definition add32 (x y : N) : N := w32 (x + y).
Definition rotr (n x : N) : N :=
  N.lor (N.shiftr x n) (w32 (N.shiftl x (32 - n))).
Definition not32 (x : N) : N := N.lxor x 0xFFFFFFFF.

Definition Ch (x y z : N) : N := N.lxor (N.land x y) (N.land (not32 x) z).
Definition Maj (x y z : N) : N :=
  N.lxor (N.lxor (N.land x y) (N.land x z)) (N.land y z).
Definition Sigma0 (x : N) : N := N.lxor (N.lxor (rotr 2 x) (rotr 13 x)) (rotr 22 x).
Definition Sigma1 (x : N) : N := N.lxor (N.lxor (rotr 6 x) (rotr 11 x)) (rotr 25 x).
Definition sigma0 (x : N) : N := N.lxor (N.lxor (rotr 7 x) (rotr 18 x)) (N.shiftr x 3).
Definition sigma1 (x : N) : N := N.lxor (N.lxor (rotr 17 x) (rotr 19 x)) (N.shiftr x 10).

(** The round constants and the initial hash value are the first 32 bits of
    the fractional parts of the cube roots of the first 64 primes and of the
    square roots of the first 8 primes. *)
Definition is_prime (n : N) : bool :=
  N.ltb 1 n &&
  forallb (fun d => negb (N.eqb (n mod d) 0))
          (map N.of_nat (seq 2 (N.to_nat n - 2))).

Definition primes (count bound : nat) : list N :=
  firstn count (filter is_prime (map N.of_nat (seq 2 bound))).

(** The largest [r] below [2 ^ bits] with [r ^ k <= n], one bit at a time. *)
Fixpoint root (k n : N) (bits : nat) (r : N) : N :=
  match bits with
  | O => r
  | S b =>
      let r' := (r + 2 ^ N.of_nat b)%N in
      root k n b (if N.leb (r' ^ k) n then r' else r)
  end.

Definition frac32_root (k p : N) : N :=
  w32 (root k (p * 2 ^ (32 * k)) 40 0).

Definition K : list N := Eval vm_compute in map (frac32_root 3) (primes 64 320).

Definition H0 : list N := Eval vm_compute in map (frac32_root 2) (primes 8 20).

(** Big-endian octets of a number, [n] of them. *)
Fixpoint be_octets (n : nat) (x : N) : list N :=
  match n with
  | O => []
  | S n' => N.land (N.shiftr x (8 * N.of_nat n')) 0xFF :: be_octets n' x
  end.

(** Padding: a 1 bit, zeros up to 56 mod 64, the bit length on 64 bits. *)
Definition pad (msg : list N) : list N :=
  let len := N.of_nat (length msg) in
  let zeros := N.to_nat ((119 - len mod 64) mod 64) in
  msg ++ 0x80%N :: repeat 0%N zeros ++ be_octets 8 (8 * len).

Fixpoint words (fuel : nat) (bs : list N) : list N :=
  match fuel, bs with
  | S f, a :: b :: c :: d :: rest =>
      (N.shiftl a 24 + N.shiftl b 16 + N.shiftl c 8 + d)%N :: words f rest
  | _, _ => []
  end.

(** The message schedule: [win] holds the last sixteen words, oldest first. *)
Fixpoint schedule (n : nat) (win : list N) : list N :=
  match n with
  | O => []
  | S n' =>
      let w := add32 (add32 (sigma1 (nth 14 win 0%N)) (nth 9 win 0%N))
                     (add32 (sigma0 (nth 1 win 0%N)) (nth 0 win 0%N)) in
      w :: schedule n' (tl win ++ [w])
  end.

Definition round (st : list N) (kw : N * N) : list N :=
  match st with
  | [a; b; c; d; e; f; g; h] =>
      let t1 := add32 (add32 (add32 h (Sigma1 e)) (add32 (Ch e f g) (fst kw))) (snd kw) in
      let t2 := add32 (Sigma0 a) (Maj a b c) in
      [add32 t1 t2; a; b; c; add32 d t1; e; f; g]
  | _ => st
  end.

Definition compress (h : list N) (block : list N) : list N :=
  let w := block ++ schedule 48 block in
  let st := fold_left round (combine K w) h in
  map (fun p => add32 (fst p) (snd p)) (combine h st).

Fixpoint blocks (fuel : nat) (ws h : list N) : list N :=
  match fuel with
  | O => h
  | S f =>
      match ws with
      | [] => h
      | _ => blocks f (skipn 16 ws) (compress h (firstn 16 ws))
      end
  end.

Definition octet (n : N) : byte :=
  match Byte.of_N (N.land n 0xFF) with
  | Some b => b
  | None => x00
  end.

Definition digest (msg : bytes) : bytes :=
  let p := pad (map Byte.to_N msg) in
  let ws := words (length p) p in
  map octet (flat_map (be_octets 4) (blocks (length ws) ws H0)).

End SHA256.

(** ** hmac.new(key, msg, hashlib.sha256) *)

Module HMAC.

Definition blocksize : nat := 64.

Definition xor_with (c : N) (b : byte) : byte :=
  SHA256.octet (N.lxor (Byte.to_N b) c).

(** A key longer than the block is hashed first; the key is then filled with
    zero octets to the block size ([key.ljust(blocksize, b'\0')]). *)
Definition block_key (key : bytes) : bytes :=
  let k := if Nat.ltb blocksize (length key) then SHA256.digest key else key in
  k ++ repeat x00 (blocksize - length k).

Definition digest (key msg : bytes) : bytes :=
  let k := block_key key in
  let inner := SHA256.digest (map (xor_with 0x36) k ++ msg) in
  SHA256.digest (map (xor_with 0x5C) k ++ inner).

Definition hex_digit (n : N) : N :=
  if N.ltb n 10 then (48 + n)%N else (87 + n)%N.

Definition hex (bs : bytes) : str :=
  flat_map (fun b => let n := Byte.to_N b in
                     [hex_digit (N.shiftr n 4); hex_digit (N.land n 0xF)]) bs.

Definition hexdigest (key msg : bytes) : str := hex (digest key msg).

End HMAC.

(** ** Strings: the [str] methods the code calls *)

Definition is_ascii (c : N) : bool := N.ltb c 128.

(** [s.startswith(prefix)]. *)
Fixpoint startswith (s prefix : str) {struct prefix} : bool :=
  match prefix, s with
  | [], _ => true
  | p :: prefix', c :: s' => N.eqb c p && startswith s' prefix'
  | _ :: _, [] => false
  end.

(** [s.encode('utf-8')]: a lone surrogate cannot be encoded. *)
Definition utf8_char (c : N) : Exc (list N) :=
  if N.ltb c 0x80 then Ok [c]
  else if N.ltb c 0x800 then
    Ok [N.lor 0xC0 (N.shiftr c 6); N.lor 0x80 (N.land c 0x3F)]
  else if N.leb 0xD800 c && N.leb c 0xDFFF then Raise UnicodeEncodeError
  else if N.ltb c 0x10000 then
    Ok [N.lor 0xE0 (N.shiftr c 12); N.lor 0x80 (N.land (N.shiftr c 6) 0x3F);
        N.lor 0x80 (N.land c 0x3F)]
  else if N.leb c 0x10FFFF then
    Ok [N.lor 0xF0 (N.shiftr c 18); N.lor 0x80 (N.land (N.shiftr c 12) 0x3F);
        N.lor 0x80 (N.land (N.shiftr c 6) 0x3F); N.lor 0x80 (N.land c 0x3F)]
  else Raise UnicodeEncodeError.

Fixpoint utf8_encode (s : str) : Exc bytes :=
  match s with
  | [] => Ok []
  | c :: s' =>
      bs <- utf8_char c ;;
      rest <- utf8_encode s' ;;
      Ok (map SHA256.octet bs ++ rest)
  end.

(** [hmac.compare_digest(a, b)] on two [str]: it refuses non-ASCII text, and
    otherwise folds the differences of every position into one accumulator
    before it looks at the result, so its running time does not depend on
    where the first difference is. *)
Fixpoint tscmp_acc (a b : str) (acc : N) : N :=
  match a, b with
  | x :: a', y :: b' => tscmp_acc a' b' (N.lor acc (N.lxor x y))
  | _, _ => acc
  end.

Definition tscmp (a b : str) : bool :=
  Nat.eqb (length a) (length b) && N.eqb (tscmp_acc a b 0) 0.

Definition compare_digest (a b : str) : Exc bool :=
  if forallb is_ascii a && forallb is_ascii b
  then Ok (tscmp a b)
  else Raise TypeError.

(** ** Logging and configuration *)

Inductive level := INFO | WARNING | ERROR.

(** A log record: its level and its message as the source writes it, an
    f-string kept as its template. *)
Definition log_record := (level * string)%type.

(** [config.py]: the values the two modules read. *)
Record Config := {
  GITHUB_WEBHOOK_SECRET : str;
  DISCORD_CHANNEL_ID : Z
}.

(** ** webhook_server.verify_github_signature *)

Definition verify_github_signature (config : Config) (payload : bytes)
    (signature : str) : bool * list log_record :=
  match GITHUB_WEBHOOK_SECRET config with
  | [] =>
      (true, [(WARNING,
        "GitHub webhook secret not configured. Skipping signature verification."%string)])
  | _ :: _ =>
      if negb (startswith signature (lit "sha256=")) then
        (false, [(ERROR, "Invalid signature format"%string)])
      else
        try_except
          (key <- utf8_encode (GITHUB_WEBHOOK_SECRET config) ;;
           let expected_signature := HMAC.hexdigest key payload in
           let received_signature := skipn 7 signature in
           r <- compare_digest expected_signature received_signature ;;
           Ok (r, []))
          (fun _ => (false, [(ERROR, "Error verifying GitHub signature: {e}"%string)]))
  end.

(** The signature a sender holding [secret] attaches to [payload]
    ([generate_github_signature] of the test scripts). *)
Definition generate_github_signature (payload : bytes) (secret : str) : Exc str :=
  key <- utf8_encode secret ;;
  Ok (lit "sha256=" ++ HMAC.hexdigest key payload).

(** ** JSON payloads *)

(** What [json.loads] returns.  A [dict] keeps its items in insertion order,
    with distinct keys. *)
Inductive json :=
| JNull
| JBool (b : bool)
| JInt (z : Z)
| JFloat (f : float)
| JStr (s : str)
| JList (l : list json)
| JDict (d : list (str * json)).

(** The parts of the Python runtime that rest on tables outside the program:
    Unicode title-casing ([str.title]), the quoted form of a string
    ([repr] of a [str], which escapes what the Unicode database calls
    non-printable) and the shortest decimal form of a float. *)
Record Runtime := {
  str_title : str -> str;
  str_repr : str -> str;
  float_repr : float -> str
}.

(** [sep.join(parts)] on strings. *)
Fixpoint join (sep : str) (parts : list str) : str :=
  match parts with
  | [] => []
  | [p] => p
  | p :: rest => p ++ sep ++ join sep rest
  end.

Definition int_str (z : Z) : str :=
  lit (DecimalString.NilZero.string_of_int (Z.to_int z)).

Section Conversions.
Variable rt : Runtime.

(** [repr(v)]. *)
Fixpoint py_repr (v : json) : str :=
  match v with
  | JNull => lit "None"
  | JBool true => lit "True"
  | JBool false => lit "False"
  | JInt z => int_str z
  | JFloat f => float_repr rt f
  | JStr s => str_repr rt s
  | JList l => lit "[" ++ join (lit ", ") (map py_repr l) ++ lit "]"
  | JDict d =>
      lit "{" ++
      join (lit ", ")
           (map (fun kv => match kv with
                           | (k, x) => str_repr rt k ++ lit ": " ++ py_repr x
                           end) d) ++
      lit "}"
  end.

(** [str(v)], which is also what an f-string field [{v}] produces. *)
Definition py_str (v : json) : str :=
  match v with
  | JStr s => s
  | _ => py_repr v
  end.

End Conversions.

Fixpoint lookup (key : str) (d : list (str * json)) : option json :=
  match d with
  | [] => None
  | (k, v) :: d' => if str_eqb k key then Some v else lookup key d'
  end.

(** [v.get(key, default)]: only a [dict] has the method. *)
Definition py_get (v : json) (key : string) (default : json) : Exc json :=
  match v with
  | JDict d =>
      match lookup (lit key) d with
      | Some x => Ok x
      | None => Ok default
      end
  | _ => Raise AttributeError
  end.

(** [len(v)]. *)
Definition py_len (v : json) : Exc nat :=
  match v with
  | JStr s => Ok (length s)
  | JList l => Ok (length l)
  | JDict d => Ok (length d)
  | _ => Raise TypeError
  end.

(** [bool(v)], the test of [if v:]. *)
Definition truthy (v : json) : bool :=
  match v with
  | JNull => false
  | JBool b => b
  | JInt z => negb (Z.eqb z 0)
  | JFloat f => negb (PrimFloat.eqb f 0%float)
  | JStr s => match s with [] => false | _ => true end
  | JList l => match l with [] => false | _ => true end
  | JDict d => match d with [] => false | _ => true end
  end.

(** The receiver of a [str] method ([.startswith], [.replace], [.title]). *)
Definition as_str (v : json) : Exc str :=
  match v with
  | JStr s => Ok s
  | _ => Raise AttributeError
  end.

(** [v[:n]]: a string or a list can be sliced; subscripting a [dict] with a
    slice, or anything else, raises. *)
Definition slice_to (n : nat) (v : json) : Exc json :=
  match v with
  | JStr s => Ok (JStr (firstn n s))
  | JList l => Ok (JList (firstn n l))
  | _ => Raise TypeError
  end.

(** [v[-1]]. *)
Definition last_item (v : json) : Exc json :=
  match v with
  | JStr s =>
      match rev s with
      | c :: _ => Ok (JStr [c])
      | [] => Raise IndexError
      end
  | JList l =>
      match rev l with
      | x :: _ => Ok x
      | [] => Raise IndexError
      end
  | JDict _ => Raise KeyError
  | _ => Raise TypeError
  end.

(** [v + "..."]: only a [str] can be extended by a [str]. *)
Definition add_str (v : json) (s : str) : Exc json :=
  match v with
  | JStr a => Ok (JStr (a ++ s))
  | _ => Raise TypeError
  end.

(** [s.replace(old, new)]: every non-overlapping occurrence of [old], from
    the left.  [skip] counts the characters of an occurrence still to drop. *)
Fixpoint replace_from (old new s : str) (skip : nat) : str :=
  match s with
  | [] => []
  | c :: s' =>
      match skip with
      | S k => replace_from old new s' k
      | O =>
          if startswith s old
          then new ++ replace_from old new s' (length old - 1)
          else c :: replace_from old new s' 0
      end
  end.

Definition replace (s old new : str) : str :=
  match old with
  | [] => new ++ flat_map (fun c => c :: new) s
  | _ :: _ => replace_from old new s 0
  end.

(** The elements [for x in v] visits. *)
Definition iterate (v : json) : Exc (list json) :=
  match v with
  | JStr s => Ok (map (fun c => JStr [c]) s)
  | JList l => Ok l
  | JDict d => Ok (map (fun kv => JStr (fst kv)) d)
  | _ => Raise TypeError
  end.

(** [[f(x) for x in xs]]. *)
Fixpoint comprehension {A B} (f : A -> Exc B) (xs : list A) : Exc (list B) :=
  match xs with
  | [] => Ok []
  | x :: xs' =>
      y <- f x ;;
      ys <- comprehension f xs' ;;
      Ok (y :: ys)
  end.

(** [sep.join(items)]: every item has to be a [str]. *)
Definition py_join (sep : str) (items : list json) : Exc str :=
  parts <- comprehension (fun x => match x with
                                   | JStr s => Ok s
                                   | _ => Raise TypeError
                                   end) items ;;
  Ok (join sep parts).

(** [table.get(key, default)] on a literal table with [str] keys: a list or a
    dict cannot be hashed; any other non-string key is simply not there. *)
Definition table_get {A} (table : list (string * A)) (key : json) (default : A)
  : Exc A :=
  match key with
  | JList _ | JDict _ => Raise TypeError
  | JStr s =>
      Ok (match find (fun kv => str_eqb (lit (fst kv)) s) table with
          | Some kv => snd kv
          | None => default
          end)
  | _ => Ok default
  end.

(** A [str] literal as a value. *)
Definition jstr (x : string) : json := JStr (lit x).
Arguments jstr x%_string.

(** ** discord.Embed *)

(** A reading of the clock ([discord.utils.utcnow()]). *)
Definition instant := Z.

(** The embed under construction, as the arguments the builders hand to
    [discord.Embed], [add_field], [set_author] and [set_footer].  Values
    taken straight from the payload are kept as they are passed. *)
Record Field := { name : str; value : json; inline : bool }.
Record Author := { author_name : json; icon_url : json }.
Record Embed := {
  title : str;
  description : str;
  color : Z;
  url : json;
  fields : list Field;
  author : option Author;
  footer : option str;
  timestamp : option instant
}.

Definition new_embed (title description : str) (color : Z) (url : json) : Embed :=
  {| title := title; description := description; color := color; url := url;
     fields := []; author := None; footer := None; timestamp := None |}.

Definition add_field (e : Embed) (name : str) (value : json) (inline : bool)
  : Embed :=
  {| title := title e; description := description e; color := color e;
     url := url e;
     fields := fields e ++ [{| name := name; value := value; inline := inline |}];
     author := author e; footer := footer e; timestamp := timestamp e |}.

Definition set_author (e : Embed) (name icon : json) : Embed :=
  {| title := title e; description := description e; color := color e;
     url := url e; fields := fields e;
     author := Some {| author_name := name; icon_url := icon |};
     footer := footer e; timestamp := timestamp e |}.

Definition set_footer (e : Embed) (text : str) : Embed :=
  {| title := title e; description := description e; color := color e;
     url := url e; fields := fields e; author := author e;
     footer := Some text; timestamp := timestamp e |}.

Definition set_timestamp (e : Embed) (t : instant) : Embed :=
  {| title := title e; description := description e; color := color e;
     url := url e; fields := fields e; author := author e;
     footer := footer e; timestamp := Some t |}.

(** ** webhook_server: the embed builders *)

Section Renderer.
Variable rt : Runtime.

(** The clock reading [discord.utils.utcnow()] returns during the call. *)
Variable now : instant.


(** The [Repository] field, written the same way by all six builders. *)
Definition repository_link (repository : json) : Exc json :=
  full_name <- py_get repository "full_name" (jstr "Unknown") ;;
  html_url <- py_get repository "html_url" (jstr "#") ;;
  Ok (JStr (lit "[" ++ py_str rt full_name ++ lit "](" ++ py_str rt html_url ++ lit ")")).

Definition create_push_embed (payload : json) : Exc Embed :=
  repository <- py_get payload "repository" (JDict []) ;;
  pusher <- py_get payload "pusher" (JDict []) ;;
  commits <- py_get payload "commits" (JList []) ;;
  ref <- py_get payload "ref" (jstr "") ;;
  compare_url <- py_get payload "compare" (jstr "") ;;
  (* Determine branch name *)
  ref_s <- as_str ref ;;
  let branch :=
    if startswith ref_s (lit "refs/heads/")
    then replace ref_s (lit "refs/heads/") (lit "")
    else ref_s in
  n <- py_len commits ;;
  repo_name <- py_get repository "name" (jstr "Unknown") ;;
  let embed :=
    new_embed
      (0x1f4dd%N :: lit " New Push to " ++ branch)
      (lit "**" ++ int_str (Z.of_nat n) ++ lit " commit(s)** pushed to `" ++
       py_str rt repo_name ++ lit "`")
      0x28a745 compare_url in
  link <- repository_link repository ;;
  let embed := add_field embed (lit "Repository") link true in
  pusher_name <- py_get pusher "name" (jstr "Unknown") ;;
  let embed := add_field embed (lit "Pushed by") pusher_name true in
  n <- py_len commits ;;
  let embed := add_field embed (lit "Commits") (JStr (int_str (Z.of_nat n))) true in
  embed <-
    (if truthy commits then
       latest_commit <- last_item commits ;;
       commit_message <- py_get latest_commit "message" (jstr "No message") ;;
       len_message <- py_len commit_message ;;
       commit_message <-
         (if Nat.ltb 100 len_message then
            head <- slice_to 97 commit_message ;;
            add_str head (lit "...")
          else Ok commit_message) ;;
       commit_url <- py_get latest_commit "url" (jstr "#") ;;
       Ok (add_field embed (lit "Latest Commit")
             (JStr (lit "[" ++ py_str rt commit_message ++ lit "](" ++
                    py_str rt commit_url ++ lit ")"))
             false)
     else Ok embed) ;;
  author_name <- py_get pusher "name" (jstr "Unknown") ;;
  avatar <- py_get pusher "avatar_url" (jstr "") ;;
  let embed := set_author embed author_name avatar in
  let embed := set_footer embed (lit "Patchy - GitHub Push Event") in
  Ok (set_timestamp embed now).

(** The [Description] step shared, line for line, by the pull-request and the
    release builder. *)
Definition add_description (embed : Embed) (body : json) : Exc Embed :=
  if truthy body then
    len_body <- py_len body ;;
    body <-
      (if Nat.ltb 500 len_body then
         head <- slice_to 497 body ;;
         add_str head (lit "...")
       else Ok body) ;;
    Ok (add_field embed (lit "Description") body false)
  else Ok embed.

Definition create_pull_request_embed (payload : json) : Exc Embed :=
  pr <- py_get payload "pull_request" (JDict []) ;;
  action <- py_get payload "action" (jstr "") ;;
  repository <- py_get payload "repository" (JDict []) ;;
  color <- table_get [("opened"%string, 0x28a745%Z); ("closed"%string, 0xdc3545%Z);
                      ("merged"%string, 0x6f42c1%Z); ("reopened"%string, 0x17a2b8%Z)]
                     action 0x6c757d%Z ;;
  action_s <- as_str action ;;
  pr_title <- py_get pr "title" (jstr "No title") ;;
  html_url <- py_get pr "html_url" (jstr "#") ;;
  let embed :=
    new_embed
      (0x1f500%N :: lit " Pull Request " ++ str_title rt action_s)
      (lit "**" ++ py_str rt pr_title ++ lit "**")
      color html_url in
  number <- py_get pr "number" (jstr "?") ;;
  state <- py_get pr "state" (jstr "unknown") ;;
  state_s <- as_str state ;;
  let embed :=
    add_field embed (lit "PR #" ++ py_str rt number)
      (JStr (lit "**" ++ str_title rt state_s ++ lit "**")) true in
  link <- repository_link repository ;;
  let embed := add_field embed (lit "Repository") link true in
  user <- py_get pr "user" (JDict []) ;;
  login <- py_get user "login" (jstr "Unknown") ;;
  let embed := add_field embed (lit "Author") login true in
  body <- py_get pr "body" (jstr "") ;;
  embed <- add_description embed body ;;
  author_name <- py_get user "login" (jstr "Unknown") ;;
  avatar <- py_get user "avatar_url" (jstr "") ;;
  let embed := set_author embed author_name avatar in
  let embed := set_footer embed (lit "Patchy - GitHub Pull Request Event") in
  Ok (set_timestamp embed now).

Definition create_issue_embed (payload : json) : Exc Embed :=
  issue <- py_get payload "issue" (JDict []) ;;
  action <- py_get payload "action" (jstr "") ;;
  repository <- py_get payload "repository" (JDict []) ;;
  color <- table_get [("opened"%string, 0xdc3545%Z); ("closed"%string, 0x28a745%Z);
                      ("reopened"%string, 0x17a2b8%Z)]
                     action 0x6c757d%Z ;;
  action_s <- as_str action ;;
  issue_title <- py_get issue "title" (jstr "No title") ;;
  html_url <- py_get issue "html_url" (jstr "#") ;;
  let embed :=
    new_embed
      (0x1f41b%N :: lit " Issue " ++ str_title rt action_s)
      (lit "**" ++ py_str rt issue_title ++ lit "**")
      color html_url in
  number <- py_get issue "number" (jstr "?") ;;
  state <- py_get issue "state" (jstr "unknown") ;;
  state_s <- as_str state ;;
  let embed :=
    add_field embed (lit "Issue #" ++ py_str rt number)
      (JStr (lit "**" ++ str_title rt state_s ++ lit "**")) true in
  link <- repository_link repository ;;
  let embed := add_field embed (lit "Repository") link true in
  user <- py_get issue "user" (JDict []) ;;
  login <- py_get user "login" (jstr "Unknown") ;;
  let embed := add_field embed (lit "Author") login true in
  labels <- py_get issue "labels" (JList []) ;;
  embed <-
    (if truthy labels then
       first5 <- slice_to 5 labels ;;
       items <- iterate first5 ;;
       label_names <- comprehension (fun label => py_get label "name" (jstr "")) items ;;
       joined <- py_join (lit ", ") label_names ;;
       Ok (add_field embed (lit "Labels") (JStr joined) false)
     else Ok embed) ;;
  author_name <- py_get user "login" (jstr "Unknown") ;;
  avatar <- py_get user "avatar_url" (jstr "") ;;
  let embed := set_author embed author_name avatar in
  let embed := set_footer embed (lit "Patchy - GitHub Issue Event") in
  Ok (set_timestamp embed now).

Definition create_release_embed (payload : json) : Exc Embed :=
  release <- py_get payload "release" (JDict []) ;;
  action <- py_get payload "action" (jstr "") ;;
  repository <- py_get payload "repository" (JDict []) ;;
  action_s <- as_str action ;;
  fallback <- py_get release "tag_name" (jstr "No title") ;;
  release_name <- py_get release "name" fallback ;;
  html_url <- py_get release "html_url" (jstr "#") ;;
  let embed :=
    new_embed
      (0x1f680%N :: lit " Release " ++ str_title rt action_s)
      (lit "**" ++ py_str rt release_name ++ lit "**")
      0xffc107 html_url in
  tag_name <- py_get release "tag_name" (jstr "No tag") ;;
  let embed := add_field embed (lit "Tag") tag_name true in
  link <- repository_link repository ;;
  let embed := add_field embed (lit "Repository") link true in
  author <- py_get release "author" (JDict []) ;;
  login <- py_get author "login" (jstr "Unknown") ;;
  let embed := add_field embed (lit "Author") login true in
  body <- py_get release "body" (jstr "") ;;
  embed <- add_description embed body ;;
  author_name <- py_get author "login" (jstr "Unknown") ;;
  avatar <- py_get author "avatar_url" (jstr "") ;;
  let embed := set_author embed author_name avatar in
  let embed := set_footer embed (lit "Patchy - GitHub Release Event") in
  Ok (set_timestamp embed now).

Definition create_create_embed (payload : json) : Exc Embed :=
  ref <- py_get payload "ref" (jstr "") ;;
  ref_type <- py_get payload "ref_type" (jstr "") ;;
  repository <- py_get payload "repository" (JDict []) ;;
  sender <- py_get payload "sender" (JDict []) ;;
  emoji <- table_get [("branch"%string, [0x1f33f%N]);
                      ("tag"%string, [0x1f3f7%N; 0xfe0f%N])]
                     ref_type [0x1f4dd%N] ;;
  ref_type_s <- as_str ref_type ;;
  repo_name <- py_get repository "name" (jstr "Unknown") ;;
  html_url <- py_get repository "html_url" (jstr "#") ;;
  let embed :=
    new_embed
      (emoji ++ lit " " ++ str_title rt ref_type_s ++ lit " Created")
      (lit "**" ++ py_str rt ref ++ lit "** created in `" ++
       py_str rt repo_name ++ lit "`")
      0x17a2b8 html_url in
  link <- repository_link repository ;;
  let embed := add_field embed (lit "Repository") link true in
  login <- py_get sender "login" (jstr "Unknown") ;;
  let embed := add_field embed (lit "Created by") login true in
  author_name <- py_get sender "login" (jstr "Unknown") ;;
  avatar <- py_get sender "avatar_url" (jstr "") ;;
  let embed := set_author embed author_name avatar in
  let embed := set_footer embed (lit "Patchy - GitHub Create Event") in
  Ok (set_timestamp embed now).

Definition create_delete_embed (payload : json) : Exc Embed :=
  ref <- py_get payload "ref" (jstr "") ;;
  ref_type <- py_get payload "ref_type" (jstr "") ;;
  repository <- py_get payload "repository" (JDict []) ;;
  sender <- py_get payload "sender" (JDict []) ;;
  emoji <- table_get [("branch"%string, [0x1f5d1%N; 0xfe0f%N]);
                      ("tag"%string, [0x1f5d1%N; 0xfe0f%N])]
                     ref_type [0x1f5d1%N; 0xfe0f%N] ;;
  ref_type_s <- as_str ref_type ;;
  repo_name <- py_get repository "name" (jstr "Unknown") ;;
  html_url <- py_get repository "html_url" (jstr "#") ;;
  let embed :=
    new_embed
      (emoji ++ lit " " ++ str_title rt ref_type_s ++ lit " Deleted")
      (lit "**" ++ py_str rt ref ++ lit "** deleted from `" ++
       py_str rt repo_name ++ lit "`")
      0xdc3545 html_url in
  link <- repository_link repository ;;
  let embed := add_field embed (lit "Repository") link true in
  login <- py_get sender "login" (jstr "Unknown") ;;
  let embed := add_field embed (lit "Deleted by") login true in
  author_name <- py_get sender "login" (jstr "Unknown") ;;
  avatar <- py_get sender "avatar_url" (jstr "") ;;
  let embed := set_author embed author_name avatar in
  let embed := set_footer embed (lit "Patchy - GitHub Delete Event") in
  Ok (set_timestamp embed now).

(** [return await build(payload)] inside the [try] of [create_event_embed]. *)
Definition returned (m : Exc Embed) : Exc (option Embed * list log_record) :=
  embed <- m ;; Ok (Some embed, []).

(** The whole body runs under [try ... except Exception], so the function
    itself never raises: it returns the embed, or [None] with a log record. *)
Definition create_event_embed (event_type : str) (payload : json)
  : option Embed * list log_record :=
  try_except
    (if str_eqb event_type (lit "push") then
       returned (create_push_embed payload)
     else if str_eqb event_type (lit "pull_request") then
       returned (create_pull_request_embed payload)
     else if str_eqb event_type (lit "issues") then
       returned (create_issue_embed payload)
     else if str_eqb event_type (lit "release") then
       returned (create_release_embed payload)
     else if str_eqb event_type (lit "create") then
       returned (create_create_embed payload)
     else if str_eqb event_type (lit "delete") then
       returned (create_delete_embed payload)
     else
       Ok (None, [(INFO, "Unsupported event type: {event_type}"%string)]))
    (fun _ => (None, [(ERROR, "Error creating embed for {event_type}: {e}"%string)])).

End Renderer.

(** The event types [create_event_embed] has a branch for, and the builder
    each branch calls. *)
Definition supported_events : list str :=
  [lit "push"; lit "pull_request"; lit "issues"; lit "release"; lit "create";
   lit "delete"].

Definition builder_of (rt : Runtime) (now : instant) (event_type : str)
  : option (json -> Exc Embed) :=
  if str_eqb event_type (lit "push") then Some (create_push_embed rt now)
  else if str_eqb event_type (lit "pull_request") then
    Some (create_pull_request_embed rt now)
  else if str_eqb event_type (lit "issues") then Some (create_issue_embed rt now)
  else if str_eqb event_type (lit "release") then Some (create_release_embed rt now)
  else if str_eqb event_type (lit "create") then Some (create_create_embed rt now)
  else if str_eqb event_type (lit "delete") then Some (create_delete_embed rt now)
  else None.

(** ** discord_bot: the dispatcher *)

(** What [await channel.send(embed=embed)] does: it delivers, or raises. *)
Inductive send_result :=
| Delivered
| SendRaises (e : exn).

(** The process-wide state: the bot singleton with its target channel, the
    calls made on the channel so far with their outcome, the log and the
    clock. *)
Record Bot := { target_channel : option Z }.

Record World := {
  bot_instance : option Bot;
  calls : list (Embed * send_result);
  log : list log_record;
  clock : instant
}.

Definition logged (w : World) (records : list log_record) : World :=
  {| bot_instance := bot_instance w; calls := calls w;
     log := log w ++ records; clock := clock w |}.

Definition with_bot (w : World) (b : Bot) : World :=
  {| bot_instance := Some b; calls := calls w; log := log w; clock := clock w |}.

Section Dispatcher.

(** The chat backend: the outcome of the [k]-th call on the channel. *)
Variable backend : nat -> Embed -> send_result.

Definition channel_send (w : World) (embed : Embed) : send_result * World :=
  let r := backend (length (calls w)) embed in
  (r, {| bot_instance := bot_instance w; calls := calls w ++ [(embed, r)];
         log := log w; clock := clock w |}).

Definition send_github_notification (self : Bot) (w : World) (embed : Embed)
  : bool * World :=
  match target_channel self with
  | None =>
      (false, logged w [(ERROR, "Target channel not set. Cannot send notification."%string)])
  | Some _ =>
      match channel_send w embed with
      | (Delivered, w') =>
          (true, logged w' [(INFO, "GitHub notification sent successfully"%string)])
      | (SendRaises Forbidden, w') =>
          (false, logged w' [(ERROR,
             "Bot doesn't have permission to send messages to the target channel"%string)])
      | (SendRaises DiscordHTTPException, w') =>
          (false, logged w' [(ERROR, "HTTP error while sending notification: {e}"%string)])
      | (SendRaises _, w') =>
          (false, logged w' [(ERROR, "Unexpected error while sending notification: {e}"%string)])
      end
  end.

(** [get_bot]: the singleton, created without a channel on first use. *)
Definition get_bot (w : World) : Bot * World :=
  match bot_instance w with
  | Some b => (b, w)
  | None =>
      let b := {| target_channel := None |} in
      (b, with_bot (logged w [(INFO, "Initializing Discord bot..."%string)]) b)
  end.

(** ** webhook_server: the background task and the endpoint *)

Variable rt : Runtime.

(** An embed a builder returns carries a title, a footer and a timestamp, so
    [if embed:] is the test that [create_event_embed] did not return [None].
    Nothing called in the [try] body raises an [Exception] here (the renderer
    and the dispatcher catch their own), so its [except] branch, which sends
    the error notification, is never entered. *)
Definition process_github_event (event_type : str) (payload : json) (w : World)
  : World :=
  let (bot, w) := get_bot w in
  let (embed, records) := create_event_embed rt (clock w) event_type payload in
  let w := logged w records in
  match embed with
  | Some e =>
      let (success, w) := send_github_notification bot w e in
      if success then w
      else logged w [(ERROR, "Failed to send notification for {event_type} event"%string)]
  | None => logged w [(WARNING, "No embed created for {event_type} event"%string)]
  end.

(** [json.loads(body.decode('utf-8'))]: the decoded payload, or the exception
    it raises ([JSONDecodeError], [UnicodeDecodeError], ...). *)
Variable json_loads : bytes -> Exc json.

Variable config : Config.

Record Request := {
  body : bytes;
  X_Hub_Signature_256 : option str;
  X_GitHub_Event : option str
}.

(** [headers.get(name, "")]. *)
Definition header (h : option str) : str :=
  match h with
  | Some v => v
  | None => []
  end.

Record Response := { status_code : Z; content : json }.

(** The stages a request goes through, recorded as they are entered. *)
Inductive stage :=
| Verify
| ParseJSON
| AddTask.

(** What one call of the endpoint leaves behind: the response, the tasks
    handed to [background_tasks], the log records and the stages entered. *)
Record Handled := {
  response : Response;
  tasks : list (str * json);
  records : list log_record;
  stages : list stage
}.

(** [http_exception_handler]: the response for a raised [HTTPException]. *)
Definition http_exception_handler (status : Z) (detail : string) : Response :=
  {| status_code := status;
     content := JDict [(lit "error", jstr detail); (lit "status_code", JInt status)] |}.

Definition github_webhook (request : Request) : Handled :=
  let signature := header (X_Hub_Signature_256 request) in
  let event_type := header (X_GitHub_Event request) in
  let (valid, vlog) := verify_github_signature config (body request) signature in
  if negb valid then
    {| response := http_exception_handler 401 "Invalid signature";
       tasks := [];
       records := vlog ++ [(WARNING, "Invalid GitHub webhook signature"%string);
                           (WARNING, "HTTP {exc.status_code}: {exc.detail} - {request.url}"%string)];
       stages := [Verify] |}
  else
    match json_loads (body request) with
    | Raise JSONDecodeError =>
        {| response := http_exception_handler 400 "Invalid JSON payload";
           tasks := [];
           records := vlog ++ [(ERROR, "Invalid JSON payload: {e}"%string);
                               (WARNING, "HTTP {exc.status_code}: {exc.detail} - {request.url}"%string)];
           stages := [Verify; ParseJSON] |}
    | Raise _ =>
        {| response := http_exception_handler 500 "Internal server error";
           tasks := [];
           records := vlog ++ [(ERROR, "Unexpected error in webhook endpoint: {e}"%string);
                               (WARNING, "HTTP {exc.status_code}: {exc.detail} - {request.url}"%string)];
           stages := [Verify; ParseJSON] |}
    | Ok payload =>
        {| response :=
             {| status_code := 200;
                content := JDict [(lit "message",
                                   jstr "Event received and queued for processing");
                                  (lit "event_type", JStr event_type)] |};
           tasks := [(event_type, payload)];
           records := vlog ++ [(INFO, "Received {event_type} event from GitHub"%string)];
           stages := [Verify; ParseJSON; AddTask] |}
    end.

(** One request served: the endpoint answers, then the framework runs the
    tasks it was handed. *)
Definition serve (request : Request) (w : World) : Response * World :=
  let h := github_webhook request in
  (response h,
   fold_left (fun w t => process_github_event (fst t) (snd t) w)
             (tasks h) (logged w (records h))).

End Dispatcher.

(** ** The runtime tables on ASCII text

    CPython's [str.title] and [repr] with the Unicode tables cut down to the
    ASCII block: the letters [A-Z] and [a-z] are the cased characters, and
    the printable characters are 0x20 to 0x7e.  Characters outside ASCII are
    passed through.  It is what the sample payloads below, which are ASCII
    and hold no float, are rendered with. *)

Module AsciiRuntime.

Definition is_upper (c : N) : bool := N.leb 65 c && N.leb c 90.
Definition is_lower (c : N) : bool := N.leb 97 c && N.leb c 122.
Definition upper (c : N) : N := if is_lower c then (c - 32)%N else c.
Definition lower (c : N) : N := if is_upper c then (c + 32)%N else c.
Definition cased (c : N) : bool := is_upper c || is_lower c.

(** [str.title]: a character after a cased one is lowered, any other is
    title-cased. *)
Fixpoint title_from (previous_is_cased : bool) (s : str) : str :=
  match s with
  | [] => []
  | c :: s' =>
      (if previous_is_cased then lower c else upper c) :: title_from (cased c) s'
  end.

Definition title (s : str) : str := title_from false s.

Definition escape (quote c : N) : str :=
  if N.eqb c quote || N.eqb c 92 then [92%N; c]
  else if N.eqb c 9 then lit "\t"
  else if N.eqb c 10 then lit "\n"
  else if N.eqb c 13 then lit "\r"
  else if N.ltb c 32 || N.eqb c 127 then
    lit "\x" ++ [HMAC.hex_digit (N.shiftr c 4); HMAC.hex_digit (N.land c 0xF)]
  else [c].

(** [repr] of a string: single quotes, unless it holds a single quote and
    no double quote. *)
Definition repr (s : str) : str :=
  let quote :=
    if existsb (N.eqb 39) s && negb (existsb (N.eqb 34) s) then 34%N else 39%N in
  quote :: flat_map (escape quote) s ++ [quote].

Definition runtime : Runtime :=
  {| str_title := title; str_repr := repr; float_repr := fun _ => lit "nan" |}.

End AsciiRuntime.

(** ** Sample inputs *)

Module Samples.

Definition ascii_bytes (text : string) : bytes :=
  map byte_of_ascii (list_ascii_of_string text).
Arguments ascii_bytes text%_string.

(** A [dict] literal. *)
Definition dict (items : list (string * json)) : json :=
  JDict (map (fun kv => (lit (fst kv), snd kv)) items).

Definition config_with (secret : str) : Config :=
  {| GITHUB_WEBHOOK_SECRET := secret; DISCORD_CHANNEL_ID := 1 |}.

(** The push payload of the specification's end-to-end scenario. *)
Definition push_main : json :=
  dict [("ref"%string, jstr "refs/heads/main");
        ("repository"%string, dict [("name"%string, jstr "r")]);
        ("pusher"%string, dict [("name"%string, jstr "u")]);
        ("commits"%string,
         JList [dict [("message"%string, jstr "m"); ("url"%string, jstr "x")]])].

(** A push to the branch [a/refs/heads/b]. *)
Definition push_nested : json :=
  dict [("ref"%string, jstr "refs/heads/a/refs/heads/b")].

(** A pull request whose body is 600 times the letter [x]. *)
Definition body_600 : str := repeat 120%N 600.

Definition pr_600_item : json :=
  dict [("title"%string, jstr "T"); ("body"%string, JStr body_600)].

Definition pr_600 : json :=
  dict [("action"%string, jstr "opened"); ("pull_request"%string, pr_600_item)].

(** A pull request whose body is the list [[1]]. *)
Definition pr_list_body : json :=
  dict [("action"%string, jstr "opened");
        ("pull_request"%string, dict [("body"%string, JList [JInt 1])])].

(** An issue with the eight labels [l1] to [l8]. *)
Definition label (text : string) : json := dict [("name"%string, jstr text)].

Definition eight_labels : list json :=
  [label "l1"; label "l2"; label "l3"; label "l4"; label "l5"; label "l6";
   label "l7"; label "l8"].

Definition issue_8_item : json := dict [("labels"%string, JList eight_labels)].

Definition issue_8 : json :=
  dict [("action"%string, jstr "opened"); ("issue"%string, issue_8_item)].

(** A backend that delivers every message, a decoder that reads every body
    as [payload], and the state of a process that has not created its bot. *)
Definition delivers : nat -> Embed -> send_result := fun _ _ => Delivered.

Definition decodes_to (payload : json) : bytes -> Exc json := fun _ => Ok payload.

Definition idle : World :=
  {| bot_instance := None; calls := []; log := []; clock := 0%Z |}.

(** A bot whose channel is not established yet, and an embed to send. *)
Definition unready_bot : Bot := {| target_channel := None |}.

Definition note : Embed := new_embed (lit "note") [] 0%Z JNull.

(** The scenario payload under a signature that is not its HMAC, and under
    no signature with an event type the renderer does not know. *)
Definition forged_request : Request :=
  {| body := ascii_bytes "{}";
     X_Hub_Signature_256 := Some (lit "sha256=00");
     X_GitHub_Event := Some (lit "push") |}.

Definition unknown_event_request : Request :=
  {| body := ascii_bytes "{}";
     X_Hub_Signature_256 := None;
     X_GitHub_Event := Some (lit "unknown_event") |}.

(** The secret ["a"] and the same secret followed by U+0000. *)
Definition secret_a : str := lit "a".
Definition secret_a_nul : str := [97%N; 0%N].

End Samples.

(** ** Vocabulary of the statements *)

(** Two runs of a builder that agree on everything but the clock reading
    either raise the same exception or return embeds that differ in their
    timestamp only. *)
Definition same_but_clock (n1 n2 : instant) (m1 m2 : Exc Embed) : Prop :=
  match m1, m2 with
  | Ok e1, Ok e2 => exists e, e1 = set_timestamp e n1 /\ e2 = set_timestamp e n2
  | Raise x1, Raise x2 => x1 = x2
  | _, _ => False
  end.

(** [d[key] = v] on the items of a [dict]: the value is replaced in place,
    or the item is added at the end. *)
Fixpoint set_key (key : str) (v : json) (d : list (str * json))
  : list (str * json) :=
  match d with
  | [] => [(key, v)]
  | (k, x) :: d' =>
      if str_eqb k key then (k, v) :: d' else (k, x) :: set_key key v d'
  end.

(** The payload [top] with [top[kind][key] = v]. *)
Definition set_nested (kind key : string) (v : json)
    (item top : list (str * json)) : json :=
  JDict (set_key (lit kind) (JDict (set_key (lit key) v item)) top).

(** The embed has a field of that name. *)
Definition has_field (field_name : str) (e : Embed) : Prop :=
  exists f, In f (fields e) /\ name f = field_name.

(** ** discord_bot: the lifecycle of the bot *)

Definition without_bot (w : World) : World :=
  {| bot_instance := None; calls := calls w; log := log w; clock := clock w |}.

Section Lifecycle.

Variable backend : nat -> Embed -> send_result.

(** [self.get_channel(id)]: the channel of that id in the bot's cache, or
    [None]. *)
Variable get_channel : Z -> option Z.

Variable config : Config.

(** [discord.Embed] called without [url] leaves it [None]. *)
Definition startup_embed (now : instant) : Embed :=
  let embed :=
    new_embed (0x1f916%N :: lit " Patchy - GitHub Notification Bot")
      (lit "Patchy is now online and ready to receive GitHub webhook notifications!")
      0x00ff00 JNull in
  let embed :=
    add_field embed (lit "Status")
      (JStr (0x2705%N :: lit " Connected and monitoring")) false in
  let embed := set_footer embed (lit "Patchy - GitHub Webhook Bot") in
  set_timestamp embed now.

(** The whole body is one [try]: with no channel, [self.target_channel.send]
    is an attribute of [None] and raises before anything is sent. *)
Definition _send_startup_message (self : Bot) (w : World) : World :=
  match target_channel self with
  | None => logged w [(ERROR, "Failed to send startup message: {e}"%string)]
  | Some _ =>
      match channel_send backend w (startup_embed (clock w)) with
      | (Delivered, w') =>
          logged w' [(INFO, "Startup message sent successfully"%string)]
      | (SendRaises _, w') =>
          logged w' [(ERROR, "Failed to send startup message: {e}"%string)]
      end
  end.

(** [on_ready] stores the channel it finds in [self]: it returns the bot as
    it leaves it. *)
Definition on_ready (self : Bot) (w : World) : Bot * World :=
  let w := logged w [(INFO, "Discord bot logged in as {self.user} (ID: {self.user.id})"%string)] in
  let self := {| target_channel := get_channel (DISCORD_CHANNEL_ID config) |} in
  match target_channel self with
  | None =>
      (self, logged w [(ERROR, "Could not find channel with ID: {config.DISCORD_CHANNEL_ID}"%string)])
  | Some _ =>
      let w := logged w [(INFO, "Bot ready! Monitoring channel: {self.target_channel.name}"%string)] in
      (self, _send_startup_message self w)
  end.

Definition error_embed (error_message event_type : str) (now : instant) : Embed :=
  let embed :=
    new_embed ([0x26a0%N; 0xfe0f%N] ++ lit " Webhook Processing Error")
      (lit "An error occurred while processing a " ++ event_type ++ lit " event:")
      0xff0000 JNull in
  let embed :=
    add_field embed (lit "Error Details")
      (JStr (lit "```" ++ firstn 1000 error_message ++ lit "```")) false in
  let embed := set_footer embed (lit "GitHub Webhook Bot - Error Handler") in
  set_timestamp embed now.

Definition send_error_notification (self : Bot) (w : World)
    (error_message event_type : str) : World :=
  match target_channel self with
  | None =>
      logged w [(ERROR, "Target channel not set. Cannot send error notification."%string)]
  | Some _ =>
      match channel_send backend w (error_embed error_message event_type (clock w)) with
      | (Delivered, w') =>
          logged w' [(INFO, "Error notification sent successfully"%string)]
      | (SendRaises _, w') =>
          logged w' [(ERROR, "Failed to send error notification: {e}"%string)]
      end
  end.

Definition shutdown_embed (now : instant) : Embed :=
  let embed :=
    new_embed (0x1f534%N :: lit " Patchy - GitHub Notification Bot")
      (lit "Patchy is shutting down. Webhook notifications will be paused.")
      0xff0000 JNull in
  let embed := set_footer embed (lit "Patchy - GitHub Webhook Bot") in
  set_timestamp embed now.

(** [close]: the farewell, if there is a channel, then [super().close()],
    after which the closing of the connection is logged. *)
Definition close (self : Bot) (w : World) : World :=
  let w :=
    match target_channel self with
    | Some _ =>
        match channel_send backend w (shutdown_embed (clock w)) with
        | (Delivered, w') =>
            logged w' [(INFO, "Shutdown message sent successfully"%string)]
        | (SendRaises _, w') =>
            logged w' [(ERROR, "Failed to send shutdown message: {e}"%string)]
        end
    | None => w
    end in
  logged w [(INFO, "Discord bot connection closed"%string)].

Definition stop_bot (w : World) : World :=
  match bot_instance w with
  | Some b =>
      logged (without_bot (close b w)) [(INFO, "Discord bot stopped"%string)]
  | None => w
  end.


End Lifecycle.

(** ** config: validation *)



(** ** Vocabulary of the further statements *)

(** A lower-case hexadecimal digit. *)
Definition is_lower_hex (c : N) : bool :=
  (N.leb 48 c && N.leb c 57) || (N.leb 97 c && N.leb c 102).

(** [old] occurs in [s]. *)
Definition occurs (old s : str) : Prop :=
  exists before after, s = before ++ old ++ after.

(** No channel is established: there is no bot yet, or its channel is unset. *)
Definition unready (w : World) : Prop :=
  match bot_instance w with
  | None => True
  | Some b => target_channel b = None
  end.

(** The payload key whose value each builder puts in the title through a
    [str] method: [ref.startswith], [action.title()], [ref_type.title()]. *)
Definition title_key (event_type : str) : string :=
  if str_eqb event_type (lit "push") then "ref"%string
  else if str_eqb event_type (lit "create") || str_eqb event_type (lit "delete")
  then "ref_type"%string
  else "action"%string.

(** Further sample inputs. *)
Module Cases.

(** A push of the tag [v1.0]. *)
Definition push_tag : json :=
  Samples.dict [("ref"%string, jstr "refs/tags/v1.0")].

(** A push of two commits; the message of the second has 120 characters. *)
Definition long_message : str := repeat 109%N 120.

Definition second_commit : list (str * json) :=
  [(lit "message", JStr long_message); (lit "url", jstr "u2")].

Definition two_commits : list json :=
  [Samples.dict [("message"%string, jstr "first")]; JDict second_commit].

Definition push_two : json :=
  Samples.dict [("ref"%string, jstr "refs/heads/main");
                ("commits"%string, JList two_commits)].

(** A release that has a tag and whose name is [null]. *)
Definition untitled_release : list (str * json) :=
  [(lit "tag_name", jstr "v2"); (lit "name", JNull)].

Definition release_untitled : json :=
  Samples.dict [("action"%string, jstr "published");
                ("release"%string, JDict untitled_release)].

(** A pull request whose action is [null]. *)
Definition pr_null_action : json :=
  Samples.dict [("action"%string, JNull); ("pull_request"%string, JDict [])].



(** A bot whose channel is established. *)
Definition ready_bot : Bot := {| target_channel := Some 1%Z |}.


Definition finds_nothing : Z -> option Z := fun _ => None.

(** An issue with six labels, the sixth of which is a number, not an object. *)
Definition labels_odd_sixth : list json :=
  map Samples.label ["bug"; "ui"; "p1"; "api"; "docs"]%string ++ [JInt 7].

Definition issue_odd_sixth : json :=
  Samples.dict [("action"%string, jstr "opened");
                ("issue"%string, Samples.dict [("labels"%string, JList labels_odd_sixth)])].

(** The creation of a branch, with a number where the name of the ref goes. *)
Definition branch_numeric_ref : json :=
  Samples.dict [("ref"%string, JInt 5); ("ref_type"%string, jstr "branch")].

End Cases.

(** * Properties *)

Unset Implicit Arguments.

(** ** Strings and the exception monad *)

Lemma str_eqb_spec (a b : str) : str_eqb a b = true <-> a = b.
Proof.
  revert b; induction a as [|x a IH]; intros [|y b]; simpl; split;
    try congruence; try reflexivity.
  - intros H. apply andb_true_iff in H as [Hx Hab].
    apply N.eqb_eq in Hx. apply IH in Hab. congruence.
  - intros H. injection H as -> ->. rewrite N.eqb_refl. simpl. now apply IH.
Qed.

Lemma str_eqb_refl (a : str) : str_eqb a a = true.
Proof. now apply str_eqb_spec. Qed.

Lemma str_eqb_neq (a b : str) : a <> b -> str_eqb a b = false.
Proof.
  intros H. destruct (str_eqb a b) eqn:E; [|reflexivity].
  apply str_eqb_spec in E. contradiction.
Qed.

Lemma bind_ok {A B} (m : Exc A) (k : A -> Exc B) (b : B) :
  bind m k = Ok b -> exists a, m = Ok a /\ k a = Ok b.
Proof. destruct m as [a|e]; simpl; [eauto | discriminate]. Qed.

Lemma startswith_app (prefix rest : str) : startswith (prefix ++ rest) prefix = true.
Proof.
  induction prefix as [|c prefix IH]; simpl; [reflexivity|].
  now rewrite N.eqb_refl, IH.
Qed.

Lemma skipn_prefix {A} (prefix rest : list A) :
  skipn (length prefix) (prefix ++ rest) = rest.
Proof. induction prefix; simpl; auto. Qed.

(** ** The hash against published values *)

(** FIPS 180-4: the first round constant and the first word of the initial
    hash value; the digests of the empty message and of ["abc"]. *)
Example sha256_constants :
  hd 0%N SHA256.K = 0x428a2f98%N /\ hd 0%N SHA256.H0 = 0x6a09e667%N /\
  length SHA256.K = 64 /\ length SHA256.H0 = 8.
Proof. repeat split. Qed.

Example sha256_abc :
  HMAC.hex (SHA256.digest (Samples.ascii_bytes "abc"))
  = lit "ba7816bf8f01cfea414140de5dae2223b00361a396177a9cb410ff61f20015ad".
Proof. vm_compute. reflexivity. Qed.

Example sha256_empty :
  HMAC.hex (SHA256.digest [])
  = lit "e3b0c44298fc1c149afbf4c8996fb92427ae41e4649b934ca495991b7852b855".
Proof. vm_compute. reflexivity. Qed.

(** RFC 4231, test case 2. *)
Example hmac_sha256_rfc4231_2 :
  HMAC.hexdigest (Samples.ascii_bytes "Jefe")
    (Samples.ascii_bytes "what do ya want for nothing?")
  = lit "5bdcc146bf60754e6a042426089575c75a003f089d2739839dec58b964ec3843".
Proof. vm_compute. reflexivity. Qed.

(** ** Signature verification *)

Lemma tscmp_acc_zero (a : str) : forall b acc,
  length a = length b ->
  (tscmp_acc a b acc = 0%N <-> acc = 0%N /\ a = b).
Proof.
  induction a as [|x a IH]; intros [|y b] acc Hlen; simpl in *;
    try discriminate.
  - intuition.
  - injection Hlen as Hlen. rewrite (IH b _ Hlen), N.lor_eq_0_iff, N.lxor_eq_0_iff.
    split.
    + intros [[-> ->] ->]. auto.
    + intros [-> H]. injection H as -> ->. auto.
Qed.

(** The accumulating comparison decides equality of the two strings. *)
Lemma tscmp_eqb (a b : str) : tscmp a b = str_eqb a b.
Proof.
  unfold tscmp. destruct (Nat.eqb (length a) (length b)) eqn:Hlen; simpl.
  - apply Nat.eqb_eq in Hlen.
    destruct (str_eqb a b) eqn:E.
    + apply N.eqb_eq, tscmp_acc_zero; [exact Hlen|].
      apply str_eqb_spec in E. auto.
    + apply N.eqb_neq. intros H. apply tscmp_acc_zero in H; [|exact Hlen].
      destruct H as [_ ->]. rewrite str_eqb_refl in E. discriminate.
  - symmetry. apply str_eqb_neq. intros ->.
    rewrite Nat.eqb_refl in Hlen. discriminate.
Qed.

Lemma hex_ascii (bs : bytes) : forallb is_ascii (HMAC.hex bs) = true.
Proof.
  induction bs as [|b bs IH]; [reflexivity|].
  unfold HMAC.hex in *. cbn [flat_map app forallb]. rewrite IH.
  destruct b; reflexivity.
Qed.

(** A header with the prefix, under a secret that can be encoded, is accepted
    exactly when the rest of the header is the digest, in lower-case hex,
    that the configured secret gives for the payload. *)
Lemma verify_prefixed (config : Config) (payload : bytes) (received : str)
    (key : bytes) :
  GITHUB_WEBHOOK_SECRET config <> [] ->
  utf8_encode (GITHUB_WEBHOOK_SECRET config) = Ok key ->
  fst (verify_github_signature config payload (lit "sha256=" ++ received)) = true
  <-> received = HMAC.hexdigest key payload.
Proof.
  intros Hne Hkey. unfold verify_github_signature.
  destruct (GITHUB_WEBHOOK_SECRET config) as [|c secret] eqn:Hs; [congruence|].
  rewrite startswith_app. cbn [negb].
  change 7 with (length (lit "sha256=")). rewrite skipn_prefix.
  rewrite Hkey. cbn [bind].
  unfold compare_digest, HMAC.hexdigest. rewrite hex_ascii. cbn [andb].
  destruct (forallb is_ascii received) eqn:Hascii; cbn [bind try_except fst].
  - rewrite tscmp_eqb. split.
    + intros H. apply str_eqb_spec in H. congruence.
    + intros ->. apply str_eqb_refl.
  - split; [discriminate|]. intros ->. rewrite hex_ascii in Hascii. discriminate.
Qed.

(** C1 (amended).  With a non-empty configured secret, the signature the
    sender computes with that same secret is accepted; a signature computed
    with another secret is accepted exactly when the two secrets give the
    same HMAC-SHA256 digest for the payload, and so is rejected whenever the
    digests differ. *)
Theorem C1_signature_accepted_iff_digests_agree
    (config : Config) (payload : bytes) (signer : str) (key signer_key : bytes) :
  GITHUB_WEBHOOK_SECRET config <> [] ->
  utf8_encode (GITHUB_WEBHOOK_SECRET config) = Ok key ->
  utf8_encode signer = Ok signer_key ->
  let signature := lit "sha256=" ++ HMAC.hexdigest signer_key payload in
  generate_github_signature payload signer = Ok signature /\
  (signer = GITHUB_WEBHOOK_SECRET config ->
   fst (verify_github_signature config payload signature) = true) /\
  (fst (verify_github_signature config payload signature) = true <->
   HMAC.hexdigest key payload = HMAC.hexdigest signer_key payload) /\
  (HMAC.hexdigest key payload <> HMAC.hexdigest signer_key payload ->
   fst (verify_github_signature config payload signature) = false).
Proof.
  intros Hne Hkey Hsigner signature.
  pose proof (verify_prefixed config payload (HMAC.hexdigest signer_key payload)
                key Hne Hkey) as Hiff.
  fold signature in Hiff.
  split; [|split; [|split]].
  - unfold generate_github_signature. rewrite Hsigner. reflexivity.
  - intros ->. apply Hiff. congruence.
  - rewrite Hiff. split; congruence.
  - intros Hdiff. destruct (fst (verify_github_signature config payload signature));
      [|reflexivity].
    exfalso. apply Hdiff. symmetry. now apply Hiff.
Qed.

(** C2 (amended).  With a non-empty configured secret, a header that does not
    start with [sha256=] is rejected, whatever the payload; with an empty
    secret every header is accepted. *)
Theorem C2_missing_prefix_rejected_under_a_secret
    (config : Config) (payload : bytes) (signature : str) :
  startswith signature (lit "sha256=") = false ->
  (GITHUB_WEBHOOK_SECRET config <> [] ->
   verify_github_signature config payload signature
   = (false, [(ERROR, "Invalid signature format"%string)])) /\
  (GITHUB_WEBHOOK_SECRET config = [] ->
   fst (verify_github_signature config payload signature) = true).
Proof.
  intros Hprefix. unfold verify_github_signature. split.
  - intros Hne. destruct (GITHUB_WEBHOOK_SECRET config); [congruence|].
    rewrite Hprefix. reflexivity.
  - intros ->. reflexivity.
Qed.

(** The round trip at the secret ["It's a Secret to Everybody"]. *)
Lemma C1_witness :
  fst (verify_github_signature
         (Samples.config_with (lit "It's a Secret to Everybody"))
         (Samples.ascii_bytes "Hello, World!")
         (lit "sha256=757107ea0eb2509fc211221cce984b8a37570b6d7586c22c46f4379c8b043e17"))
  = true.
Proof.
  exact (proj1 (proj2
    (C1_signature_accepted_iff_digests_agree
       (Samples.config_with (lit "It's a Secret to Everybody"))
       (Samples.ascii_bytes "Hello, World!")
       (lit "It's a Secret to Everybody")
       (Samples.ascii_bytes "It's a Secret to Everybody")
       (Samples.ascii_bytes "It's a Secret to Everybody")
       ltac:(discriminate) eq_refl eq_refl)) eq_refl).
Defined.

(** C1 as stated fails: the secret ["a"] followed by U+0000 differs from the
    secret ["a"], both are non-empty, and yet a server configured with the
    first accepts the signature made with the second (HMAC fills a short key
    with zero octets). *)
Lemma C1_zero_padded_secret_accepted :
  Samples.secret_a_nul <> Samples.secret_a /\
  Samples.secret_a <> [] /\ Samples.secret_a_nul <> [] /\
  generate_github_signature (Samples.ascii_bytes "x") Samples.secret_a
  = Ok (lit "sha256=399b97cd540c0883ac6d1fc22d4e72f6300007cf5954e5a1b306a9e4e02f9029") /\
  fst (verify_github_signature (Samples.config_with Samples.secret_a_nul)
         (Samples.ascii_bytes "x")
         (lit "sha256=399b97cd540c0883ac6d1fc22d4e72f6300007cf5954e5a1b306a9e4e02f9029"))
  = true.
Proof. repeat split; try discriminate; vm_compute; reflexivity. Qed.

Lemma C2_witness :
  verify_github_signature (Samples.config_with (lit "s3cret"))
    (Samples.ascii_bytes "{}") (lit "sha1=0123")
  = (false, [(ERROR, "Invalid signature format"%string)]).
Proof.
  exact (proj1 (C2_missing_prefix_rejected_under_a_secret
                  (Samples.config_with (lit "s3cret"))
                  (Samples.ascii_bytes "{}") (lit "sha1=0123") eq_refl)
               ltac:(discriminate)).
Defined.

(** C2 as stated fails: with no secret configured, a header without the
    prefix (here the empty header) is accepted. *)
Lemma C2_empty_secret_accepts_any_header :
  startswith [] (lit "sha256=") = false /\
  fst (verify_github_signature (Samples.config_with []) (Samples.ascii_bytes "{}") [])
  = true.
Proof. split; reflexivity. Qed.

(** ** The dispatcher *)

(** C9.  [send_github_notification] always returns (it is a total function of
    the state, the embed and the backend's answer).  Without a target channel
    it returns [False] and the channel is not called.  With one it calls the
    channel exactly once: it returns [True] exactly when that call delivers,
    and [False] when the call raises, be it [Forbidden], an [HTTPException]
    or anything else.  In no case is a second call made. *)
Theorem C9_dispatch_returns_false_on_failure_without_retry
    (backend : nat -> Embed -> send_result) (self : Bot) (w : World)
    (embed : Embed) :
  (target_channel self = None ->
   fst (send_github_notification backend self w embed) = false /\
   calls (snd (send_github_notification backend self w embed)) = calls w) /\
  (target_channel self <> None ->
   calls (snd (send_github_notification backend self w embed))
   = calls w ++ [(embed, backend (length (calls w)) embed)] /\
   (fst (send_github_notification backend self w embed) = true <->
    backend (length (calls w)) embed = Delivered) /\
   (forall e, backend (length (calls w)) embed = SendRaises e ->
    fst (send_github_notification backend self w embed) = false)) /\
  length (calls (snd (send_github_notification backend self w embed)))
  <= S (length (calls w)).
Proof.
  unfold send_github_notification, channel_send.
  destruct (target_channel self) as [c|].
  - split; [discriminate|]. split.
    + intros _. destruct (backend (length (calls w)) embed) as [|e] eqn:Hb.
      * simpl. repeat split; auto; discriminate.
      * destruct e; simpl; repeat split; auto; try discriminate;
          intros e' He'; reflexivity.
    + destruct (backend (length (calls w)) embed) as [|e].
      * simpl. rewrite length_app. simpl. lia.
      * destruct e; simpl; rewrite length_app; simpl; lia.
  - split; [intros _; split; reflexivity|]. split; [congruence|].
    simpl. lia.
Qed.

(** ** The renderer's dispatch on the event type *)

Lemma create_event_embed_builder (rt : Runtime) (now : instant) (event_type : str)
    (payload : json) :
  create_event_embed rt now event_type payload
  = match builder_of rt now event_type with
    | Some build =>
        try_except (returned (build payload))
          (fun _ => (None, [(ERROR, "Error creating embed for {event_type}: {e}"%string)]))
    | None => (None, [(INFO, "Unsupported event type: {event_type}"%string)])
    end.
Proof.
  unfold create_event_embed, builder_of.
  repeat match goal with
         | |- context [str_eqb event_type ?x] => destruct (str_eqb event_type x)
         end; reflexivity.
Qed.

Lemma builder_of_unsupported (rt : Runtime) (now : instant) (event_type : str) :
  ~ In event_type supported_events -> builder_of rt now event_type = None.
Proof.
  intros Hnot. unfold builder_of.
  repeat match goal with
         | |- context [str_eqb event_type ?x] =>
             rewrite (str_eqb_neq event_type x)
               by (intros ->; apply Hnot; simpl; tauto)
         end.
  reflexivity.
Qed.

(** A task whose event renders to nothing leaves the channel alone. *)
Lemma process_without_embed (backend : nat -> Embed -> send_result)
    (rt : Runtime) (event_type : str) (payload : json) (w : World) :
  (forall now, fst (create_event_embed rt now event_type payload) = None) ->
  calls (process_github_event backend rt event_type payload w) = calls w.
Proof.
  intros Hnone. unfold process_github_event, get_bot.
  destruct (bot_instance w); cbn [with_bot logged clock].
  - specialize (Hnone (clock w)).
    destruct (create_event_embed rt (clock w) event_type payload) as [[e|] recs];
      [discriminate | reflexivity].
  - specialize (Hnone (clock w)).
    destruct (create_event_embed rt (clock w) event_type payload) as [[e|] recs];
      [discriminate | reflexivity].
Qed.

(** ** The endpoint *)

(** C3.  A request whose signature fails verification is answered 401; the
    endpoint stops at the verification stage, so the body is not parsed and no
    task is handed to the background runner: nothing is rendered and the
    channel is not called. *)
Theorem C3_invalid_signature_is_401_and_nothing_runs
    (backend : nat -> Embed -> send_result) (rt : Runtime)
    (json_loads : bytes -> Exc json) (config : Config) (request : Request)
    (w : World) :
  fst (verify_github_signature config (body request)
         (header (X_Hub_Signature_256 request))) = false ->
  status_code (response (github_webhook json_loads config request)) = 401%Z /\
  stages (github_webhook json_loads config request) = [Verify] /\
  tasks (github_webhook json_loads config request) = [] /\
  status_code (fst (serve backend rt json_loads config request w)) = 401%Z /\
  calls (snd (serve backend rt json_loads config request w)) = calls w /\
  bot_instance (snd (serve backend rt json_loads config request w)) = bot_instance w.
Proof.
  intros Hinvalid. unfold serve, github_webhook.
  destruct (verify_github_signature config (body request)
              (header (X_Hub_Signature_256 request))) as [valid vlog].
  simpl in Hinvalid. subst valid. simpl. repeat split.
Qed.

(** C8.  An event type outside the six supported ones renders to [None],
    logged at level INFO; the endpoint answers a verified, well-formed request
    with 200 whatever its event type, and for an unsupported one the task it
    queued leaves the channel alone.  When the builder of a supported type
    raises, [create_event_embed] returns [None] instead of raising. *)
Theorem C8_unsupported_or_failing_render_is_none_and_200
    (backend : nat -> Embed -> send_result) (rt : Runtime) (now : instant)
    (json_loads : bytes -> Exc json) (config : Config) :
  (forall event_type payload,
     ~ In event_type supported_events ->
     create_event_embed rt now event_type payload
     = (None, [(INFO, "Unsupported event type: {event_type}"%string)])) /\
  (forall request payload w,
     fst (verify_github_signature config (body request)
            (header (X_Hub_Signature_256 request))) = true ->
     json_loads (body request) = Ok payload ->
     status_code (response (github_webhook json_loads config request)) = 200%Z /\
     status_code (fst (serve backend rt json_loads config request w)) = 200%Z /\
     (~ In (header (X_GitHub_Event request)) supported_events ->
      calls (snd (serve backend rt json_loads config request w)) = calls w)) /\
  (forall event_type payload build e,
     builder_of rt now event_type = Some build ->
     build payload = Raise e ->
     create_event_embed rt now event_type payload
     = (None, [(ERROR, "Error creating embed for {event_type}: {e}"%string)])).
Proof.
  split; [|split].
  - intros event_type payload Hnot.
    rewrite create_event_embed_builder, builder_of_unsupported by exact Hnot.
    reflexivity.
  - intros request payload w Hvalid Hjson. unfold serve, github_webhook.
    destruct (verify_github_signature config (body request)
                (header (X_Hub_Signature_256 request))) as [valid vlog].
    simpl in Hvalid. subst valid. rewrite Hjson. cbn.
    repeat split. intros Hnot. rewrite process_without_embed; [reflexivity|].
    intros now'. rewrite create_event_embed_builder, builder_of_unsupported
      by exact Hnot. reflexivity.
  - intros event_type payload build e Hbuild Hraise.
    rewrite create_event_embed_builder, Hbuild, Hraise. reflexivity.
Qed.

(** ** Rendering and the clock *)

Lemma bind_same_but_clock {A} (n1 n2 : instant) (m : Exc A)
    (k1 k2 : A -> Exc Embed) :
  (forall a, same_but_clock n1 n2 (k1 a) (k2 a)) ->
  same_but_clock n1 n2 (bind m k1) (bind m k2).
Proof. intros H. destruct m as [a|e]; simpl; [apply H | reflexivity]. Qed.

Lemma stamped_same_but_clock (n1 n2 : instant) (e : Embed) :
  same_but_clock n1 n2 (Ok (set_timestamp e n1)) (Ok (set_timestamp e n2)).
Proof. simpl. eauto. Qed.

Ltac clock_steps :=
  cbv beta zeta;
  repeat (apply bind_same_but_clock; intro; cbv beta zeta);
  apply stamped_same_but_clock.

Section Clock.
Variable rt : Runtime.
Variables n1 n2 : instant.
Variable payload : json.

Lemma push_clock :
  same_but_clock n1 n2 (create_push_embed rt n1 payload)
    (create_push_embed rt n2 payload).
Proof. unfold create_push_embed. clock_steps. Qed.

Lemma pull_request_clock :
  same_but_clock n1 n2 (create_pull_request_embed rt n1 payload)
    (create_pull_request_embed rt n2 payload).
Proof. unfold create_pull_request_embed. clock_steps. Qed.

Lemma issue_clock :
  same_but_clock n1 n2 (create_issue_embed rt n1 payload)
    (create_issue_embed rt n2 payload).
Proof. unfold create_issue_embed. clock_steps. Qed.

Lemma release_clock :
  same_but_clock n1 n2 (create_release_embed rt n1 payload)
    (create_release_embed rt n2 payload).
Proof. unfold create_release_embed. clock_steps. Qed.

Lemma create_clock :
  same_but_clock n1 n2 (create_create_embed rt n1 payload)
    (create_create_embed rt n2 payload).
Proof. unfold create_create_embed. clock_steps. Qed.

Lemma delete_clock :
  same_but_clock n1 n2 (create_delete_embed rt n1 payload)
    (create_delete_embed rt n2 payload).
Proof. unfold create_delete_embed. clock_steps. Qed.

End Clock.

(** C4 (amended).  Two invocations of [create_event_embed] on the same event
    type and payload either both return [None] or return embeds with equal
    title, description, color, url, fields, author and footer; the timestamp
    of each embed is the clock reading of its own invocation. *)
Theorem C4_render_deterministic_but_for_timestamp
    (rt : Runtime) (event_type : str) (payload : json) (now1 now2 : instant) :
  match fst (create_event_embed rt now1 event_type payload),
        fst (create_event_embed rt now2 event_type payload) with
  | Some e1, Some e2 =>
      title e1 = title e2 /\ description e1 = description e2 /\
      color e1 = color e2 /\ url e1 = url e2 /\ fields e1 = fields e2 /\
      author e1 = author e2 /\ footer e1 = footer e2 /\
      timestamp e1 = Some now1 /\ timestamp e2 = Some now2
  | None, None => True
  | _, _ => False
  end.
Proof.
  rewrite !create_event_embed_builder. unfold builder_of.
  assert (Hrun : forall m1 m2, same_but_clock now1 now2 m1 m2 ->
    match fst (try_except (returned m1)
                 (fun _ => (None, [(ERROR, "Error creating embed for {event_type}: {e}"%string)]))),
          fst (try_except (returned m2)
                 (fun _ => (None, [(ERROR, "Error creating embed for {event_type}: {e}"%string)])))
    with
    | Some e1, Some e2 =>
        title e1 = title e2 /\ description e1 = description e2 /\
        color e1 = color e2 /\ url e1 = url e2 /\ fields e1 = fields e2 /\
        author e1 = author e2 /\ footer e1 = footer e2 /\
        timestamp e1 = Some now1 /\ timestamp e2 = Some now2
    | None, None => True
    | _, _ => False
    end).
  { intros [e1|x1] [e2|x2]; simpl; try tauto.
    intros (e & -> & ->). simpl. repeat split. }
  repeat match goal with
         | |- context [str_eqb event_type ?x] => destruct (str_eqb event_type x)
         end;
    [ apply Hrun, push_clock | apply Hrun, pull_request_clock
    | apply Hrun, issue_clock | apply Hrun, release_clock
    | apply Hrun, create_clock | apply Hrun, delete_clock | exact I ].
Qed.

(** C4 as stated fails on the timestamp: the same push payload rendered at
    two clock readings gives two different timestamps. *)
Lemma C4_timestamp_follows_the_clock :
  option_map timestamp
    (fst (create_event_embed AsciiRuntime.runtime 0%Z (lit "push") Samples.push_main))
  = Some (Some 0%Z) /\
  option_map timestamp
    (fst (create_event_embed AsciiRuntime.runtime 1%Z (lit "push") Samples.push_main))
  = Some (Some 1%Z) /\
  fst (create_event_embed AsciiRuntime.runtime 0%Z (lit "push") Samples.push_main)
  <> fst (create_event_embed AsciiRuntime.runtime 1%Z (lit "push") Samples.push_main).
Proof.
  split; [vm_compute; reflexivity|]. split; [vm_compute; reflexivity|].
  intros H. apply (f_equal (option_map timestamp)) in H. vm_compute in H.
  discriminate.
Qed.

(** ** Truncated descriptions *)

Ltac bind_inv H :=
  repeat (cbv beta zeta in H;
          lazymatch type of H with
          | bind _ _ = Ok _ =>
              let v := fresh "v" in
              let E := fresh "E" in
              apply bind_ok in H; destruct H as (v & E & H)
          end).

(** Two reads of the same key give the same value. *)
Ltac same_reads :=
  repeat match goal with
         | H1 : ?t = Ok ?x, H2 : ?t = Ok ?y |- _ =>
             rewrite H1 in H2; injection H2 as <-
         end.

Lemma create_event_embed_some (rt : Runtime) (now : instant) (event_type : str)
    (payload : json) (e : Embed) :
  fst (create_event_embed rt now event_type payload) = Some e ->
  exists build, builder_of rt now event_type = Some build /\ build payload = Ok e.
Proof.
  rewrite create_event_embed_builder.
  destruct (builder_of rt now event_type) as [build|]; [|discriminate].
  destruct (build payload) as [e'|x] eqn:Hbuild; simpl; [|discriminate].
  intros H. injection H as <-. eauto.
Qed.

Lemma add_description_falsy (base : Embed) (body : json) :
  truthy body = false -> add_description base body = Ok base.
Proof. intros H. unfold add_description. now rewrite H. Qed.

Lemma add_description_truthy (base : Embed) (body : json) (e : Embed) :
  truthy body = true ->
  add_description base body = Ok e ->
  exists v, e = add_field base (lit "Description") v false.
Proof.
  intros Ht. unfold add_description. rewrite Ht. intros H. bind_inv H.
  injection H as <-. eauto.
Qed.

Lemma add_description_str (base : Embed) (s : str) :
  s <> [] ->
  add_description base (JStr s)
  = Ok (add_field base (lit "Description")
          (JStr (if Nat.ltb 500 (length s) then firstn 497 s ++ lit "..." else s))
          false).
Proof.
  intros Hs. unfold add_description. destruct s as [|c s]; [congruence|].
  cbn [truthy py_len bind]. destruct (Nat.ltb 500 (length (c :: s))); reflexivity.
Qed.

(** The pull-request and the release builder put three fields before the
    description step and none after it. *)
Lemma pull_request_description (rt : Runtime) (now : instant)
    (payload pr body : json) (e : Embed) :
  py_get payload "pull_request" (JDict []) = Ok pr ->
  py_get pr "body" (jstr "") = Ok body ->
  create_pull_request_embed rt now payload = Ok e ->
  exists base f1 f2 f3 described,
    fields base = [f1; f2; f3] /\
    name f1 <> lit "Description" /\ name f2 <> lit "Description" /\
    name f3 <> lit "Description" /\
    add_description base body = Ok described /\
    fields e = fields described.
Proof.
  intros Hpr Hbody H. unfold create_pull_request_embed in H. bind_inv H.
  same_reads. injection H as <-.
  match goal with
  | HE : add_description ?b _ = Ok ?d |- _ =>
      exists b; do 3 eexists; exists d;
      cbn [fields add_field new_embed app name set_timestamp set_footer set_author];
      repeat split; try discriminate; try reflexivity; exact HE
  end.
Qed.

Lemma release_description (rt : Runtime) (now : instant)
    (payload release body : json) (e : Embed) :
  py_get payload "release" (JDict []) = Ok release ->
  py_get release "body" (jstr "") = Ok body ->
  create_release_embed rt now payload = Ok e ->
  exists base f1 f2 f3 described,
    fields base = [f1; f2; f3] /\
    name f1 <> lit "Description" /\ name f2 <> lit "Description" /\
    name f3 <> lit "Description" /\
    add_description base body = Ok described /\
    fields e = fields described.
Proof.
  intros Hrelease Hbody H. unfold create_release_embed in H. bind_inv H.
  same_reads. injection H as <-.
  match goal with
  | HE : add_description ?b _ = Ok ?d |- _ =>
      exists b; do 3 eexists; exists d;
      cbn [fields add_field new_embed app name set_timestamp set_footer set_author];
      repeat split; try discriminate; try reflexivity; exact HE
  end.
Qed.

(** Both events at once: the event type and the payload key of the item are
    the same word, [pull_request] or [release]. *)
Lemma event_description (rt : Runtime) (now : instant) (kind : string)
    (payload item body : json) (e : Embed) :
  kind = "pull_request"%string \/ kind = "release"%string ->
  py_get payload kind (JDict []) = Ok item ->
  py_get item "body" (jstr "") = Ok body ->
  fst (create_event_embed rt now (lit kind) payload) = Some e ->
  exists base f1 f2 f3 described,
    fields base = [f1; f2; f3] /\
    name f1 <> lit "Description" /\ name f2 <> lit "Description" /\
    name f3 <> lit "Description" /\
    add_description base body = Ok described /\
    fields e = fields described.
Proof.
  intros Hkind Hitem Hbody Hsome.
  apply create_event_embed_some in Hsome as (build & Hbuild & Hrun).
  destruct Hkind as [-> | ->].
  - change (builder_of rt now (lit "pull_request"))
      with (Some (create_pull_request_embed rt now)) in Hbuild.
    injection Hbuild as <-. eapply pull_request_description; eassumption.
  - change (builder_of rt now (lit "release"))
      with (Some (create_release_embed rt now)) in Hbuild.
    injection Hbuild as <-. eapply release_description; eassumption.
Qed.

Lemma truncated_length (s : str) :
  500 < length s -> length (firstn 497 s ++ lit "...") = 500.
Proof.
  intros H. rewrite length_app, length_firstn.
  change (length (lit "...")) with 3. lia.
Qed.

(** C5.  When a pull-request (or release) payload whose body is a string
    renders, a body longer than 500 characters yields, as fourth and last
    field, a Description of exactly 500 characters, the first 497 of the body
    followed by ["..."]; a non-empty body of at most 500 characters is the
    Description unchanged. *)
Theorem C5_description_truncated_to_500
    (rt : Runtime) (now : instant) (kind : string) (payload item : json)
    (s : str) (e : Embed) :
  kind = "pull_request"%string \/ kind = "release"%string ->
  py_get payload kind (JDict []) = Ok item ->
  py_get item "body" (jstr "") = Ok (JStr s) ->
  fst (create_event_embed rt now (lit kind) payload) = Some e ->
  (500 < length s ->
   nth_error (fields e) 3
   = Some {| name := lit "Description";
             value := JStr (firstn 497 s ++ lit "...");
             inline := false |} /\
   length (fields e) = 4 /\
   length (firstn 497 s ++ lit "...") = 500) /\
  (0 < length s <= 500 ->
   nth_error (fields e) 3
   = Some {| name := lit "Description"; value := JStr s; inline := false |} /\
   length (fields e) = 4).
Proof.
  intros Hkind Hitem Hbody Hsome.
  destruct (event_description rt now kind payload item (JStr s) e
              Hkind Hitem Hbody Hsome)
    as (base & f1 & f2 & f3 & described & Hbase & _ & _ & _ & Hdesc & Hfields).
  split; intros Hlen.
  - rewrite add_description_str in Hdesc by (destruct s; simpl in *; [lia|congruence]).
    injection Hdesc as <-. rewrite Hfields. cbn [fields add_field]. rewrite Hbase.
    apply Nat.ltb_lt in Hlen as Hlt. rewrite Hlt.
    repeat split. now apply truncated_length.
  - rewrite add_description_str in Hdesc by (destruct s; simpl in *; [lia|congruence]).
    injection Hdesc as <-. rewrite Hfields. cbn [fields add_field]. rewrite Hbase.
    assert (Hlt : Nat.ltb 500 (length s) = false) by (apply Nat.ltb_ge; lia).
    rewrite Hlt. repeat split.
Qed.

(** ** Labels *)

Lemma comprehension_Forall2 {A B} (f : A -> Exc B) (xs : list A) :
  forall ys, comprehension f xs = Ok ys ->
  Forall2 (fun x y => f x = Ok y) xs ys.
Proof.
  induction xs as [|x xs IH]; simpl; intros ys H.
  - injection H as <-. constructor.
  - bind_inv H. injection H as <-. constructor; auto.
Qed.

Lemma py_join_ok (sep : str) (items : list json) (joined : str) :
  py_join sep items = Ok joined ->
  exists names, items = map JStr names /\ joined = join sep names.
Proof.
  unfold py_join. intros H. bind_inv H. injection H as <-.
  exists v. split; [|reflexivity].
  apply comprehension_Forall2 in E. clear -E.
  induction E as [|x s items names Hx _ IH]; [reflexivity|].
  simpl. rewrite <- IH. destruct x; try discriminate. congruence.
Qed.

Lemma Forall2_map_JStr (P : json -> json -> Prop) (xs : list json)
    (names : list str) :
  Forall2 P xs (map JStr names) ->
  Forall2 (fun x n => P x (JStr n)) xs names.
Proof.
  revert xs. induction names as [|n names IH]; intros xs H; inversion H; subst;
    constructor; auto.
Qed.

(** What the issue builder does with a non-empty list of labels. *)
Lemma issue_labels (rt : Runtime) (now : instant)
    (payload issue : json) (labels : list json) (e : Embed) :
  py_get payload "issue" (JDict []) = Ok issue ->
  py_get issue "labels" (JList []) = Ok (JList labels) ->
  labels <> [] ->
  create_issue_embed rt now payload = Ok e ->
  exists f1 f2 f3 names,
    Forall2 (fun label n => py_get label "name" (jstr "") = Ok (JStr n))
            (firstn 5 labels) names /\
    fields e = [f1; f2; f3;
                {| name := lit "Labels"; value := JStr (join (lit ", ") names);
                   inline := false |}].
Proof.
  intros Hissue Hlabels Hne H. unfold create_issue_embed in H. bind_inv H.
  same_reads. injection H as <-.
  destruct labels as [|l0 ls]; [congruence|].
  match goal with
  | HE : (if truthy (JList (l0 :: ls)) then _ else _) = Ok _ |- _ =>
      cbn [truthy] in HE; bind_inv HE; injection HE as <-
  end.
  repeat match goal with
         | HE : slice_to _ _ = Ok _ |- _ =>
             cbn [slice_to] in HE; injection HE as <-
         | HE : iterate (JList _) = Ok _ |- _ =>
             cbn [iterate] in HE; injection HE as <-
         end.
  match goal with
  | HJ : py_join _ _ = Ok _ |- _ =>
      apply py_join_ok in HJ; destruct HJ as (names & -> & ->)
  end.
  match goal with
  | HC : comprehension _ _ = Ok _ |- _ =>
      apply comprehension_Forall2, Forall2_map_JStr in HC
  end.
  do 3 eexists. exists names. split; [eassumption|].
  reflexivity.
Qed.

(** C6.  When an issues payload with a non-empty list of labels renders, the
    fourth and last field is Labels, and its value is the names of the first
    five labels at most, in list order, joined by [", "]. *)
Theorem C6_labels_joined_first_five
    (rt : Runtime) (now : instant) (payload issue : json) (labels : list json)
    (e : Embed) :
  py_get payload "issue" (JDict []) = Ok issue ->
  py_get issue "labels" (JList []) = Ok (JList labels) ->
  labels <> [] ->
  fst (create_event_embed rt now (lit "issues") payload) = Some e ->
  exists names,
    Forall2 (fun label n => py_get label "name" (jstr "") = Ok (JStr n))
            (firstn 5 labels) names /\
    nth_error (fields e) 3
    = Some {| name := lit "Labels"; value := JStr (join (lit ", ") names);
              inline := false |} /\
    length (fields e) = 4 /\
    length names = Nat.min 5 (length labels) /\
    length names <= 5.
Proof.
  intros Hissue Hlabels Hne Hsome.
  apply create_event_embed_some in Hsome as (build & Hbuild & Hrun).
  change (builder_of rt now (lit "issues"))
    with (Some (create_issue_embed rt now)) in Hbuild.
  injection Hbuild as <-.
  destruct (issue_labels rt now payload issue labels e Hissue Hlabels Hne Hrun)
    as (f1 & f2 & f3 & names & Hnames & Hfields).
  exists names. rewrite Hfields. repeat split; try assumption.
  - apply Forall2_length in Hnames. rewrite <- Hnames, length_firstn. reflexivity.
  - apply Forall2_length in Hnames. rewrite <- Hnames, length_firstn. lia.
Qed.

(** ** The branch of a push *)

Lemma replace_from_skip (old new prefix rest : str) :
  replace_from old new (prefix ++ rest) (length prefix)
  = replace_from old new rest 0.
Proof.
  induction prefix as [|c prefix IH]; simpl; [|exact IH].
  destruct rest; reflexivity.
Qed.

(** On a string that starts with [old], [replace] drops that occurrence and
    goes on replacing in the rest. *)
Lemma replace_prefixed (old new rest : str) :
  old <> [] ->
  replace (old ++ rest) old new = new ++ replace rest old new.
Proof.
  intros Hold. destruct old as [|c old]; [congruence|].
  unfold replace. cbn [app replace_from].
  change (c :: old ++ rest) with ((c :: old) ++ rest).
  rewrite startswith_app. cbn [length Nat.sub]. rewrite Nat.sub_0_r.
  now rewrite replace_from_skip.
Qed.

(** C7, the code at the failing input.  For the ref
    [refs/heads/a/refs/heads/b], that is the branch [a/refs/heads/b], the
    title names the branch [a/b]: [replace] removed the second occurrence of
    [refs/heads/] as well. *)
Theorem C7_inner_occurrence_is_removed_too (rt : Runtime) (now : instant) :
  exists e,
    create_event_embed rt now (lit "push") Samples.push_nested = (Some e, []) /\
    title e = 0x1f4dd%N :: lit " New Push to a/b" /\
    title e <> 0x1f4dd%N :: lit " New Push to a/refs/heads/b".
Proof.
  eexists. split; [vm_compute; reflexivity|].
  split; [reflexivity | discriminate].
Qed.

(** ** Optional fields *)

Lemma lookup_set_key_same (key : str) (v : json) (d : list (str * json)) :
  lookup key (set_key key v d) = Some v.
Proof.
  induction d as [|[k x] d IH]; simpl.
  - now rewrite str_eqb_refl.
  - destruct (str_eqb k key) eqn:E; simpl; rewrite E; auto.
Qed.

Lemma lookup_set_key_other (key key' : str) (v : json) (d : list (str * json)) :
  str_eqb key key' = false ->
  lookup key' (set_key key v d) = lookup key' d.
Proof.
  intros Hne. induction d as [|[k x] d IH]; simpl.
  - now rewrite Hne.
  - destruct (str_eqb k key) eqn:E; simpl.
    + apply str_eqb_spec in E. subst k. now rewrite Hne.
    + now rewrite IH.
Qed.

Lemma py_get_set_key_same (key : string) (v default : json)
    (d : list (str * json)) :
  py_get (JDict (set_key (lit key) v d)) key default = Ok v.
Proof. unfold py_get. now rewrite lookup_set_key_same. Qed.

Lemma py_get_set_key_other (key key' : string) (v default : json)
    (d : list (str * json)) :
  str_eqb (lit key) (lit key') = false ->
  py_get (JDict (set_key (lit key) v d)) key' default
  = py_get (JDict d) key' default.
Proof. intros H. unfold py_get. now rewrite lookup_set_key_other. Qed.

Lemma py_get_present (key : string) (v default : json) (d : list (str * json)) :
  lookup (lit key) d = Some v -> py_get (JDict d) key default = Ok v.
Proof. intros H. unfold py_get. now rewrite H. Qed.

Lemma py_get_absent (key : string) (default : json) (d : list (str * json)) :
  lookup (lit key) d = None -> py_get (JDict d) key default = Ok default.
Proof. intros H. unfold py_get. now rewrite H. Qed.

Lemma bind_ext {A B} (m : Exc A) (k1 k2 : A -> Exc B) :
  (forall a, k1 a = k2 a) -> bind m k1 = bind m k2.
Proof. intros H. destruct m; simpl; auto. Qed.

Ltac read_keys :=
  repeat first
    [ rewrite py_get_set_key_same
    | rewrite py_get_set_key_other by reflexivity ].

(** A body that is absent and a body that is the empty string render alike. *)
Lemma pull_request_absent_body (rt : Runtime) (now : instant)
    (top item : list (str * json)) :
  lookup (lit "pull_request") top = Some (JDict item) ->
  lookup (lit "body") item = None ->
  create_pull_request_embed rt now (set_nested "pull_request" "body" (JStr []) item top)
  = create_pull_request_embed rt now (JDict top).
Proof.
  intros Hitem Hbody. unfold create_pull_request_embed, set_nested.
  read_keys. rewrite (py_get_present "pull_request" _ _ top Hitem).
  cbn [bind]. read_keys. rewrite (py_get_absent "body" _ item Hbody).
  reflexivity.
Qed.

Lemma release_absent_body (rt : Runtime) (now : instant)
    (top item : list (str * json)) :
  lookup (lit "release") top = Some (JDict item) ->
  lookup (lit "body") item = None ->
  create_release_embed rt now (set_nested "release" "body" (JStr []) item top)
  = create_release_embed rt now (JDict top).
Proof.
  intros Hitem Hbody. unfold create_release_embed, set_nested.
  read_keys. rewrite (py_get_present "release" _ _ top Hitem).
  cbn [bind]. read_keys. rewrite (py_get_absent "body" _ item Hbody).
  repeat (apply bind_ext; intro). read_keys. reflexivity.
Qed.

Lemma issue_absent_labels (rt : Runtime) (now : instant)
    (top item : list (str * json)) :
  lookup (lit "issue") top = Some (JDict item) ->
  lookup (lit "labels") item = None ->
  create_issue_embed rt now (set_nested "issue" "labels" (JList []) item top)
  = create_issue_embed rt now (JDict top).
Proof.
  intros Hitem Hlabels. unfold create_issue_embed, set_nested.
  read_keys. rewrite (py_get_present "issue" _ _ top Hitem).
  cbn [bind]. read_keys. rewrite (py_get_absent "labels" _ item Hlabels).
  reflexivity.
Qed.

Lemma has_field_three (field_name : str) (f1 f2 f3 : Field) (e : Embed) :
  fields e = [f1; f2; f3] ->
  name f1 <> field_name -> name f2 <> field_name -> name f3 <> field_name ->
  ~ has_field field_name e.
Proof.
  intros Hfields H1 H2 H3 (f & Hin & Hname). rewrite Hfields in Hin.
  simpl in Hin. intuition (subst; congruence).
Qed.

Lemma has_field_added (field_name : str) (base : Embed) (v : json) (e : Embed) :
  fields e = fields (add_field base field_name v false) ->
  has_field field_name e.
Proof.
  intros Hfields. exists {| name := field_name; value := v; inline := false |}.
  rewrite Hfields. cbn [fields add_field]. split; [|reflexivity].
  apply in_or_app. right. now left.
Qed.

(** The Description field is there exactly when the body passed [if body:]. *)
Lemma description_iff_truthy (rt : Runtime) (now : instant) (kind : string)
    (payload item body : json) (e : Embed) :
  kind = "pull_request"%string \/ kind = "release"%string ->
  py_get payload kind (JDict []) = Ok item ->
  py_get item "body" (jstr "") = Ok body ->
  fst (create_event_embed rt now (lit kind) payload) = Some e ->
  (has_field (lit "Description") e <-> truthy body = true).
Proof.
  intros Hkind Hitem Hbody Hsome.
  destruct (event_description rt now kind payload item body e
              Hkind Hitem Hbody Hsome)
    as (base & f1 & f2 & f3 & described & Hbase & N1 & N2 & N3 & Hdesc & Hfields).
  destruct (truthy body) eqn:Ht.
  - split; [reflexivity|]. intros _.
    destruct (add_description_truthy base body described Ht Hdesc) as (v & ->).
    eapply has_field_added. exact Hfields.
  - split; [|discriminate]. intros Hhas. exfalso.
    rewrite add_description_falsy in Hdesc by exact Ht. injection Hdesc as <-.
    apply (has_field_three (lit "Description") f1 f2 f3 e); auto. congruence.
Qed.

(** The Labels field is there exactly when [labels] is a non-empty list:
    any other value that passes [if labels:] makes the builder raise. *)
Lemma labels_iff_nonempty_list (rt : Runtime) (now : instant)
    (payload issue labels : json) (e : Embed) :
  py_get payload "issue" (JDict []) = Ok issue ->
  py_get issue "labels" (JList []) = Ok labels ->
  create_issue_embed rt now payload = Ok e ->
  (has_field (lit "Labels") e <-> exists l, labels = JList l /\ l <> []).
Proof.
  intros Hissue Hlabels H. unfold create_issue_embed in H. bind_inv H.
  same_reads. injection H as <-.
  match goal with
  | HE : (if truthy labels then _ else _) = Ok ?d |- _ =>
      destruct (truthy labels) eqn:Ht;
      [ bind_inv HE; injection HE as <- | injection HE as <- ]
  end.
  - split.
    + intros _.
      destruct labels as [| | | |s|l|d]; try discriminate.
      * destruct s as [|c s]; [discriminate|].
        repeat match goal with
               | HE : slice_to _ _ = Ok _ |- _ =>
                   cbn [slice_to firstn] in HE; injection HE as <-
               | HE : iterate _ = Ok _ |- _ =>
                   cbn [iterate map] in HE; injection HE as <-
               | HE : comprehension _ _ = Ok _ |- _ =>
                   cbn [comprehension py_get bind] in HE; discriminate
               end.
      * exists l. split; [reflexivity|]. destruct l; [discriminate|congruence].
    + intros _. eapply has_field_added. reflexivity.
  - split.
    + intros Hhas. exfalso. revert Hhas.
      eapply has_field_three; [reflexivity | | |]; cbn [name]; discriminate.
    + intros (l & -> & Hl). destruct l; [congruence|discriminate].
Qed.

Lemma truthy_str (s : str) : truthy (JStr s) = true <-> s <> [].
Proof. destruct s; simpl; split; congruence. Qed.

(** C10 (amended).  For pull-request and release payloads, a body that is
    absent and a body that is the empty string render to the same result, with
    no Description field.  When the payload renders, the Description field
    exists if and only if the body is truthy: for a string body, if and only
    if it is non-empty; never for [null].  Likewise an absent and an empty
    list of labels render alike, and the Labels field exists if and only if
    [labels] is a non-empty list. *)
Theorem C10_optional_fields_follow_truthiness (rt : Runtime) (now : instant) :
  (forall kind top item,
     kind = "pull_request"%string \/ kind = "release"%string ->
     lookup (lit kind) top = Some (JDict item) ->
     lookup (lit "body") item = None ->
     create_event_embed rt now (lit kind) (set_nested kind "body" (JStr []) item top)
     = create_event_embed rt now (lit kind) (JDict top) /\
     forall e, fst (create_event_embed rt now (lit kind) (JDict top)) = Some e ->
               ~ has_field (lit "Description") e) /\
  (forall kind payload item body e,
     kind = "pull_request"%string \/ kind = "release"%string ->
     py_get payload kind (JDict []) = Ok item ->
     py_get item "body" (jstr "") = Ok body ->
     fst (create_event_embed rt now (lit kind) payload) = Some e ->
     (has_field (lit "Description") e <-> truthy body = true) /\
     (forall s, body = JStr s -> (has_field (lit "Description") e <-> s <> [])) /\
     (body = JNull -> ~ has_field (lit "Description") e)) /\
  (forall top item,
     lookup (lit "issue") top = Some (JDict item) ->
     lookup (lit "labels") item = None ->
     create_event_embed rt now (lit "issues")
       (set_nested "issue" "labels" (JList []) item top)
     = create_event_embed rt now (lit "issues") (JDict top) /\
     forall e, fst (create_event_embed rt now (lit "issues") (JDict top)) = Some e ->
               ~ has_field (lit "Labels") e) /\
  (forall payload issue labels e,
     py_get payload "issue" (JDict []) = Ok issue ->
     py_get issue "labels" (JList []) = Ok labels ->
     fst (create_event_embed rt now (lit "issues") payload) = Some e ->
     (has_field (lit "Labels") e <-> exists l, labels = JList l /\ l <> [])).
Proof.
  assert (Hdesc : forall kind payload item body e,
     kind = "pull_request"%string \/ kind = "release"%string ->
     py_get payload kind (JDict []) = Ok item ->
     py_get item "body" (jstr "") = Ok body ->
     fst (create_event_embed rt now (lit kind) payload) = Some e ->
     (has_field (lit "Description") e <-> truthy body = true))
    by (intros; eapply description_iff_truthy; eassumption).
  assert (Hlab : forall payload issue labels e,
     py_get payload "issue" (JDict []) = Ok issue ->
     py_get issue "labels" (JList []) = Ok labels ->
     fst (create_event_embed rt now (lit "issues") payload) = Some e ->
     (has_field (lit "Labels") e <-> exists l, labels = JList l /\ l <> [])).
  { intros payload issue labels e Hissue Hlabels Hsome.
    apply create_event_embed_some in Hsome as (build & Hbuild & Hrun).
    change (builder_of rt now (lit "issues"))
      with (Some (create_issue_embed rt now)) in Hbuild.
    injection Hbuild as <-. eapply labels_iff_nonempty_list; eassumption. }
  split; [|split; [|split]].
  - intros kind top item Hkind Hitem Hbody. split.
    + rewrite !create_event_embed_builder. destruct Hkind as [-> | ->].
      * change (builder_of rt now (lit "pull_request"))
          with (Some (create_pull_request_embed rt now)).
        cbv beta iota. now rewrite pull_request_absent_body.
      * change (builder_of rt now (lit "release"))
          with (Some (create_release_embed rt now)).
        cbv beta iota. now rewrite release_absent_body.
    + intros e Hsome Hhas.
      apply (Hdesc kind (JDict top) (JDict item) (jstr "") e Hkind) in Hhas;
        try assumption; try discriminate.
      * now apply py_get_present.
      * now apply py_get_absent.
  - intros kind payload item body e Hkind Hitem Hbody Hsome.
    pose proof (Hdesc kind payload item body e Hkind Hitem Hbody Hsome) as Hiff.
    split; [exact Hiff|]. split.
    + intros s ->. rewrite Hiff. apply truthy_str.
    + intros -> Hhas. apply Hiff in Hhas. discriminate.
  - intros top item Hitem Hlabels. split.
    + rewrite !create_event_embed_builder.
      change (builder_of rt now (lit "issues"))
        with (Some (create_issue_embed rt now)).
      cbv beta iota. now rewrite issue_absent_labels.
    + intros e Hsome Hhas.
      apply (Hlab (JDict top) (JDict item) (JList []) e) in Hhas; try assumption.
      * destruct Hhas as (l & Hl & Hne). injection Hl as <-. congruence.
      * now apply py_get_present.
      * now apply py_get_absent.
  - exact Hlab.
Qed.

(** C10 as stated fails: a pull request whose body is the list [[1]], which
    is not a string, renders with a Description field. *)
Lemma C10_list_body_gets_a_description :
  option_map (fun e => nth_error (fields e) 3)
    (fst (create_event_embed AsciiRuntime.runtime 0%Z (lit "pull_request")
            Samples.pr_list_body))
  = Some (Some {| name := lit "Description"; value := JList [JInt 1];
                  inline := false |}).
Proof. vm_compute. reflexivity. Qed.

(** ** The statements at sample inputs *)

Lemma C3_witness :
  status_code
    (fst (serve Samples.delivers AsciiRuntime.runtime
            (Samples.decodes_to Samples.push_main)
            (Samples.config_with (lit "s3cret")) Samples.forged_request
            Samples.idle))
  = 401%Z /\
  calls
    (snd (serve Samples.delivers AsciiRuntime.runtime
            (Samples.decodes_to Samples.push_main)
            (Samples.config_with (lit "s3cret")) Samples.forged_request
            Samples.idle))
  = [].
Proof.
  pose proof (C3_invalid_signature_is_401_and_nothing_runs
                Samples.delivers AsciiRuntime.runtime
                (Samples.decodes_to Samples.push_main)
                (Samples.config_with (lit "s3cret")) Samples.forged_request
                Samples.idle eq_refl) as (_ & _ & _ & Hstatus & Hcalls & _).
  exact (conj Hstatus Hcalls).
Defined.

Lemma C5_witness :
  exists e,
    fst (create_event_embed AsciiRuntime.runtime 0%Z (lit "pull_request")
           Samples.pr_600) = Some e /\
    nth_error (fields e) 3
    = Some {| name := lit "Description";
              value := JStr (firstn 497 Samples.body_600 ++ lit "...");
              inline := false |} /\
    length (fields e) = 4 /\
    length (firstn 497 Samples.body_600 ++ lit "...") = 500.
Proof.
  eexists. split; [vm_compute; reflexivity|].
  refine (proj1 (C5_description_truncated_to_500 AsciiRuntime.runtime 0%Z
                   "pull_request" Samples.pr_600 Samples.pr_600_item
                   Samples.body_600 _ (or_introl eq_refl) eq_refl eq_refl _) _).
  - vm_compute. reflexivity.
  - apply Nat.ltb_lt. vm_compute. reflexivity.
Defined.

Lemma C6_witness :
  exists e names,
    fst (create_event_embed AsciiRuntime.runtime 0%Z (lit "issues")
           Samples.issue_8) = Some e /\
    Forall2 (fun label n => py_get label "name" (jstr "") = Ok (JStr n))
            (firstn 5 Samples.eight_labels) names /\
    nth_error (fields e) 3
    = Some {| name := lit "Labels"; value := JStr (join (lit ", ") names);
              inline := false |} /\
    length names <= 5.
Proof.
  eexists.
  assert (Hsome : fst (create_event_embed AsciiRuntime.runtime 0%Z (lit "issues")
                         Samples.issue_8) = Some _) by (vm_compute; reflexivity).
  destruct (C6_labels_joined_first_five AsciiRuntime.runtime 0%Z Samples.issue_8
              Samples.issue_8_item Samples.eight_labels _ eq_refl eq_refl
              ltac:(discriminate) Hsome)
    as (names & Hnames & Hfield & _ & _ & Hle).
  exists names. exact (conj Hsome (conj Hnames (conj Hfield Hle))).
Defined.

Lemma C8_witness :
  create_event_embed AsciiRuntime.runtime 0%Z (lit "unknown_event") Samples.push_main
  = (None, [(INFO, "Unsupported event type: {event_type}"%string)]) /\
  status_code
    (fst (serve Samples.delivers AsciiRuntime.runtime
            (Samples.decodes_to Samples.push_main) (Samples.config_with [])
            Samples.unknown_event_request Samples.idle))
  = 200%Z.
Proof.
  pose proof (C8_unsupported_or_failing_render_is_none_and_200
                Samples.delivers AsciiRuntime.runtime 0%Z
                (Samples.decodes_to Samples.push_main) (Samples.config_with []))
    as (Hnone & Hok & _).
  split.
  - apply Hnone. simpl. intuition discriminate.
  - exact (proj1 (proj2 (Hok Samples.unknown_event_request Samples.push_main
                           Samples.idle eq_refl eq_refl))).
Defined.

Lemma C9_witness :
  fst (send_github_notification Samples.delivers Samples.unready_bot Samples.idle
         Samples.note) = false /\
  calls (snd (send_github_notification Samples.delivers Samples.unready_bot
                Samples.idle Samples.note)) = [].
Proof.
  exact (proj1 (C9_dispatch_returns_false_on_failure_without_retry
                  Samples.delivers Samples.unready_bot Samples.idle Samples.note)
               eq_refl).
Defined.

Lemma C10_witness :
  exists e,
    fst (create_event_embed AsciiRuntime.runtime 0%Z (lit "pull_request")
           Samples.pr_600) = Some e /\
    (has_field (lit "Description") e <-> Samples.body_600 <> []).
Proof.
  eexists.
  assert (Hsome : fst (create_event_embed AsciiRuntime.runtime 0%Z
                         (lit "pull_request") Samples.pr_600) = Some _)
    by (vm_compute; reflexivity).
  split; [exact Hsome|].
  exact (proj1 (proj2 (proj1 (proj2 (C10_optional_fields_follow_truthiness
                                       AsciiRuntime.runtime 0%Z))
                         "pull_request"%string Samples.pr_600 Samples.pr_600_item
                         (JStr Samples.body_600) _ (or_introl eq_refl) eq_refl
                         eq_refl Hsome))
               Samples.body_600 eq_refl).
Defined.

(** The specification's end-to-end scenario: the push payload, accepted, is
    answered 200 and the channel receives one embed, titled
    [New Push to main] after the memo emoji. *)
Example scenario_push_to_main :
  let w := with_bot Samples.idle {| target_channel := Some 1%Z |} in
  let served := serve Samples.delivers AsciiRuntime.runtime
                  (Samples.decodes_to Samples.push_main) (Samples.config_with [])
                  {| body := Samples.ascii_bytes "{}";
                     X_Hub_Signature_256 := None;
                     X_GitHub_Event := Some (lit "push") |} w in
  status_code (fst served) = 200%Z /\
  map (fun call => (title (fst call), snd call)) (calls (snd served))
  = [(0x1f4dd%N :: lit " New Push to main", Delivered)].
Proof. vm_compute. split; reflexivity. Qed.

(** Eight labels: the first five are rendered. *)
Example eight_labels_render_five :
  option_map (fun e => nth_error (fields e) 3)
    (fst (create_event_embed AsciiRuntime.runtime 0%Z (lit "issues") Samples.issue_8))
  = Some (Some {| name := lit "Labels"; value := jstr "l1, l2, l3, l4, l5";
                  inline := false |}).
Proof. vm_compute. reflexivity. Qed.

(** * Further properties *)

(** ** What the verifier accepts *)

Lemma startswith_split (s prefix : str) :
  startswith s prefix = true -> s = prefix ++ skipn (length prefix) s.
Proof.
  revert s. induction prefix as [|p prefix IH]; intros s H; [reflexivity|].
  destruct s as [|c s]; [discriminate|]. simpl in H.
  apply andb_true_iff in H as [Hc Hrest]. apply N.eqb_eq in Hc. subst c.
  simpl. f_equal. now apply IH.
Qed.

(** Under a configured secret the only header accepted is the prefix
    followed by the hex digest under the encoded secret. *)
Lemma verify_accepted_inv (config : Config) (payload : bytes) (signature : str) :
  GITHUB_WEBHOOK_SECRET config <> [] ->
  fst (verify_github_signature config payload signature) = true ->
  exists key,
    utf8_encode (GITHUB_WEBHOOK_SECRET config) = Ok key /\
    signature = lit "sha256=" ++ HMAC.hexdigest key payload.
Proof.
  intros Hne Hok.
  destruct (startswith signature (lit "sha256=")) eqn:Hprefix.
  - apply startswith_split in Hprefix.
    set (received := skipn (length (lit "sha256=")) signature) in Hprefix.
    rewrite Hprefix in Hok |- *.
    destruct (utf8_encode (GITHUB_WEBHOOK_SECRET config)) as [key|e] eqn:Hkey.
    + exists key. split; [reflexivity|]. f_equal.
      now apply (verify_prefixed config payload received key Hne Hkey).
    + unfold verify_github_signature in Hok.
      destruct (GITHUB_WEBHOOK_SECRET config); [congruence|].
      rewrite startswith_app, Hkey in Hok. discriminate Hok.
  - unfold verify_github_signature in Hok.
    destruct (GITHUB_WEBHOOK_SECRET config); [congruence|].
    rewrite Hprefix in Hok. discriminate Hok.
Qed.

(** X1.  The verifier accepts exactly in two cases: no secret is configured,
    or the header is [sha256=] followed by the lower-case hex HMAC-SHA256 of
    the payload under the UTF-8 bytes of the secret.  A secret that cannot be
    encoded, a header with other text after the prefix (non-ASCII text
    included) and a header without the prefix are all rejected. *)
Theorem verify_accepts_iff (config : Config) (payload : bytes) (signature : str) :
  fst (verify_github_signature config payload signature) = true <->
  GITHUB_WEBHOOK_SECRET config = [] \/
  exists key,
    utf8_encode (GITHUB_WEBHOOK_SECRET config) = Ok key /\
    signature = lit "sha256=" ++ HMAC.hexdigest key payload.
Proof.
  split.
  - intros Hok.
    destruct (GITHUB_WEBHOOK_SECRET config) as [|c secret] eqn:Hsecret;
      [now left | right].
    rewrite <- Hsecret. apply verify_accepted_inv; [congruence | exact Hok].
  - destruct (GITHUB_WEBHOOK_SECRET config) as [|c secret] eqn:Hsecret.
    + intros _. unfold verify_github_signature. now rewrite Hsecret.
    + intros [Hnil | (key & Hkey & ->)]; [discriminate|].
      rewrite <- Hsecret in Hkey.
      apply (verify_prefixed config payload _ key); [congruence | exact Hkey |].
      reflexivity.
Qed.

(** The digest is 32 octets, whatever the message. *)
Lemma round_length (st : list N) (kw : N * N) :
  length st = 8 -> length (SHA256.round st kw) = 8.
Proof.
  intros H. do 9 (destruct st as [|? st]; try discriminate). reflexivity.
Qed.

Lemma rounds_length (kws : list (N * N)) : forall st,
  length st = 8 -> length (fold_left SHA256.round kws st) = 8.
Proof.
  induction kws as [|kw kws IH]; intros st H; simpl; [exact H|].
  apply IH, round_length, H.
Qed.

Lemma compress_length (h block : list N) :
  length h = 8 -> length (SHA256.compress h block) = 8.
Proof.
  intros H. unfold SHA256.compress.
  rewrite length_map, length_combine, rounds_length by exact H.
  rewrite H. reflexivity.
Qed.

Lemma blocks_length (fuel : nat) : forall ws h,
  length h = 8 -> length (SHA256.blocks fuel ws h) = 8.
Proof.
  induction fuel as [|fuel IH]; intros ws h H; simpl; [exact H|].
  destruct ws; [exact H|]. apply IH, compress_length, H.
Qed.

Lemma be_octets_length (n : nat) (x : N) : length (SHA256.be_octets n x) = n.
Proof. induction n; simpl; auto. Qed.

Lemma flat_map_length {A B} (f : A -> list B) (k : nat) (l : list A) :
  (forall x, length (f x) = k) -> length (flat_map f l) = k * length l.
Proof.
  intros H. induction l as [|x l IH]; simpl; [lia|].
  rewrite length_app, H, IH. lia.
Qed.

Lemma sha256_digest_length (msg : bytes) : length (SHA256.digest msg) = 32.
Proof.
  unfold SHA256.digest. rewrite length_map.
  rewrite (flat_map_length _ 4) by (intros; apply be_octets_length).
  rewrite blocks_length by reflexivity. reflexivity.
Qed.

Lemma hexdigest_length (key msg : bytes) : length (HMAC.hexdigest key msg) = 64.
Proof.
  unfold HMAC.hexdigest, HMAC.hex.
  rewrite (flat_map_length _ 2) by reflexivity.
  unfold HMAC.digest. now rewrite sha256_digest_length.
Qed.

Lemma hex_lower (bs : bytes) : forallb is_lower_hex (HMAC.hex bs) = true.
Proof.
  induction bs as [|b bs IH]; [reflexivity|].
  unfold HMAC.hex in *. cbn [flat_map app forallb]. rewrite IH.
  destruct b; reflexivity.
Qed.

(** X2.  Under a configured secret, an accepted header has exactly 71
    characters: the prefix and 64 lower-case hex digits.  A digest sent in
    upper case, shortened or followed by anything is rejected. *)
Theorem accepted_signature_shape (config : Config) (payload : bytes)
    (signature : str) :
  GITHUB_WEBHOOK_SECRET config <> [] ->
  fst (verify_github_signature config payload signature) = true ->
  length signature = 71 /\
  firstn 7 signature = lit "sha256=" /\
  forallb is_lower_hex (skipn 7 signature) = true.
Proof.
  intros Hne Hok.
  destruct (verify_accepted_inv config payload signature Hne Hok)
    as (key & _ & ->).
  split; [|split].
  - rewrite length_app, hexdigest_length. reflexivity.
  - reflexivity.
  - change 7 with (length (lit "sha256=")). rewrite skipn_prefix.
    apply hex_lower.
Qed.

Lemma accepted_signature_shape_witness :
  length (lit "sha256=757107ea0eb2509fc211221cce984b8a37570b6d7586c22c46f4379c8b043e17")
  = 71.
Proof.
  exact (proj1 (accepted_signature_shape
                  (Samples.config_with (lit "It's a Secret to Everybody"))
                  (Samples.ascii_bytes "Hello, World!")
                  (lit "sha256=757107ea0eb2509fc211221cce984b8a37570b6d7586c22c46f4379c8b043e17")
                  ltac:(discriminate) eq_refl)).
Defined.

(** ** The endpoint, case by case *)

(** X3.  The endpoint answers 401, 400, 500 or 200, each in exactly one
    case: 401 when verification fails, whatever the body; 400 when the
    verified body raises [JSONDecodeError]; 500 when decoding raises anything
    else (a body that is not UTF-8, say); 200 when it decodes.  One task, for
    the event type of the header and the decoded payload, is queued with a
    200, and none with any other answer. *)
Theorem endpoint_status_taxonomy (json_loads : bytes -> Exc json)
    (config : Config) (request : Request) :
  (status_code (response (github_webhook json_loads config request)) = 401%Z <->
   fst (verify_github_signature config (body request)
          (header (X_Hub_Signature_256 request))) = false) /\
  (status_code (response (github_webhook json_loads config request)) = 400%Z <->
   fst (verify_github_signature config (body request)
          (header (X_Hub_Signature_256 request))) = true /\
   json_loads (body request) = Raise JSONDecodeError) /\
  (status_code (response (github_webhook json_loads config request)) = 500%Z <->
   fst (verify_github_signature config (body request)
          (header (X_Hub_Signature_256 request))) = true /\
   exists e, json_loads (body request) = Raise e /\ e <> JSONDecodeError) /\
  (status_code (response (github_webhook json_loads config request)) = 200%Z <->
   fst (verify_github_signature config (body request)
          (header (X_Hub_Signature_256 request))) = true /\
   exists payload,
     json_loads (body request) = Ok payload /\
     tasks (github_webhook json_loads config request)
     = [(header (X_GitHub_Event request), payload)]) /\
  (status_code (response (github_webhook json_loads config request)) <> 200%Z ->
   tasks (github_webhook json_loads config request) = []).
Proof.
  unfold github_webhook.
  destruct (verify_github_signature config (body request)
              (header (X_Hub_Signature_256 request))) as [[|] vlog];
    cbn [fst negb].
  - destruct (json_loads (body request)) as [payload|e].
    + cbn. repeat split; try discriminate; try (intros [_ H]; discriminate H);
        try (intros (_ & e & H & _); discriminate H); eauto.
      congruence.
    + assert (He : e = JSONDecodeError \/ e <> JSONDecodeError)
        by (destruct e; auto; right; discriminate).
      destruct He as [-> | He].
      * cbn. repeat split; try discriminate; try (intros [_ H]; discriminate H);
          try (intros (_ & p & H & _); discriminate H).
        intros (_ & e & H & Hne). congruence.
      * destruct e; try congruence; cbn;
          (repeat split; try discriminate; try (intros [_ H]; discriminate H);
           try (intros (_ & p & H & _); discriminate H); eauto).
  - cbn. repeat split; try discriminate; try (intros [H _]; discriminate H).
Qed.



(** ** What a task does to the channel *)

Lemma send_extends (backend : nat -> Embed -> send_result) (self : Bot)
    (w : World) (embed : Embed) :
  exists sent records,
    calls (snd (send_github_notification backend self w embed)) = calls w ++ sent /\
    length sent <= 1 /\
    log (snd (send_github_notification backend self w embed)) = log w ++ records /\
    bot_instance (snd (send_github_notification backend self w embed))
    = bot_instance w.
Proof.
  unfold send_github_notification, channel_send.
  destruct (target_channel self) as [c|].
  - exists [(embed, backend (length (calls w)) embed)].
    destruct (backend (length (calls w)) embed) as [|[]]; cbn;
      eexists; repeat split; auto.
  - exists []. eexists. cbn. rewrite app_nil_r. repeat split. lia.
Qed.

Lemma process_extends (backend : nat -> Embed -> send_result) (rt : Runtime)
    (event_type : str) (payload : json) (w : World) :
  exists sent records,
    calls (process_github_event backend rt event_type payload w) = calls w ++ sent /\
    length sent <= 1 /\
    log (process_github_event backend rt event_type payload w) = log w ++ records.
Proof.
  unfold process_github_event.
  destruct (get_bot w) as [bot w1] eqn:Hbot.
  assert (H1 : calls w1 = calls w /\ exists r1, log w1 = log w ++ r1).
  { unfold get_bot in Hbot. destruct (bot_instance w); injection Hbot as <- <-.
    - split; [reflexivity|]. exists []. now rewrite app_nil_r.
    - cbn. eauto. }
  destruct H1 as (Hcalls1 & r1 & Hlog1).
  destruct (create_event_embed rt (clock w1) event_type payload) as [[e|] recs].
  - destruct (send_extends backend bot (logged w1 recs) e)
      as (sent & r2 & Hcalls & Hlen & Hlog & _).
    destruct (send_github_notification backend bot (logged w1 recs) e)
      as [[|] w2]; cbn [fst snd] in *.
    + exists sent, (r1 ++ recs ++ r2). rewrite Hcalls, Hlog. cbn.
      rewrite Hcalls1, Hlog1, <- !app_assoc. auto.
    + exists sent. eexists. cbn. rewrite Hcalls, Hlog. cbn.
      rewrite Hcalls1, Hlog1, <- !app_assoc. auto.
  - exists []. eexists. cbn. rewrite Hcalls1, Hlog1, <- !app_assoc, app_nil_r.
    repeat split. lia.
Qed.

(** X5.  Serving one request calls the channel at most once, whatever the
    request and whatever the backend answers: the calls and the log records
    made before are kept, at most one call is added, and a failed call is
    not repeated. *)
Theorem serve_calls_channel_at_most_once
    (backend : nat -> Embed -> send_result) (rt : Runtime)
    (json_loads : bytes -> Exc json) (config : Config) (request : Request)
    (w : World) :
  exists sent records,
    calls (snd (serve backend rt json_loads config request w)) = calls w ++ sent /\
    length sent <= 1 /\
    log (snd (serve backend rt json_loads config request w)) = log w ++ records.
Proof.
  unfold serve.
  assert (Htasks : tasks (github_webhook json_loads config request) = [] \/
                   exists t, tasks (github_webhook json_loads config request) = [t]).
  { unfold github_webhook.
    destruct (verify_github_signature config (body request)
                (header (X_Hub_Signature_256 request))) as [[|] vlog]; cbn; auto.
    destruct (json_loads (body request)) as [p|[]]; cbn; eauto. }
  destruct Htasks as [-> | [t ->]]; cbn [fold_left snd].
  - exists []. eexists. cbn. rewrite app_nil_r. repeat split. lia.
  - destruct (process_extends backend rt (fst t) (snd t)
                (logged w (records (github_webhook json_loads config request))))
      as (sent & r & Hcalls & Hlen & Hlog).
    exists sent. eexists. rewrite Hcalls, Hlog. cbn. rewrite <- app_assoc. auto.
Qed.

Lemma process_unready (backend : nat -> Embed -> send_result) (rt : Runtime)
    (event_type : str) (payload : json) (w : World) :
  unready w ->
  calls (process_github_event backend rt event_type payload w) = calls w /\
  unready (process_github_event backend rt event_type payload w) /\
  bot_instance (process_github_event backend rt event_type payload w) <> None.
Proof.
  unfold unready, process_github_event, get_bot. intros Hun.
  destruct (bot_instance w) as [b|] eqn:Hb.
  - destruct (create_event_embed rt (clock w) event_type payload) as [[e|] recs];
      unfold send_github_notification; cbn; rewrite ?Hun; cbn; rewrite Hb;
        repeat split; auto; discriminate.
  - cbn.
    destruct (create_event_embed rt (clock w) event_type payload) as [[e|] recs];
      unfold send_github_notification; cbn; repeat split; auto; discriminate.
Qed.

(** X6.  While no channel is established (no bot yet, or a bot whose
    [on_ready] has not found the channel), tasks deliver nothing: however
    many events are processed, the channel is never called, the first task
    creates the channel-less singleton and the later ones reuse it.  The
    events are dropped, not kept for later. *)
Theorem unready_tasks_deliver_nothing
    (backend : nat -> Embed -> send_result) (rt : Runtime)
    (events : list (str * json)) (w : World) :
  unready w ->
  calls (fold_left (fun w t => process_github_event backend rt (fst t) (snd t) w)
           events w) = calls w /\
  unready (fold_left (fun w t => process_github_event backend rt (fst t) (snd t) w)
             events w) /\
  (events <> [] ->
   bot_instance (fold_left (fun w t => process_github_event backend rt (fst t) (snd t) w)
                   events w) <> None).
Proof.
  revert w. induction events as [|t events IH]; intros w Hun; cbn [fold_left].
  - repeat split; auto; congruence.
  - destruct (process_unready backend rt (fst t) (snd t) w Hun)
      as (Hcalls & Hun' & Hbot).
    destruct (IH _ Hun') as (IHcalls & IHun & IHbot).
    split; [congruence|]. split; [exact IHun|]. intros _.
    destruct events as [|t' events]; [exact Hbot|]. apply IHbot. discriminate.
Qed.

Lemma unready_tasks_deliver_nothing_witness :
  calls (fold_left
           (fun w t => process_github_event Samples.delivers AsciiRuntime.runtime
                         (fst t) (snd t) w)
           [(lit "push", Samples.push_main); (lit "issues", Samples.issue_8)]
           Samples.idle) = [].
Proof.
  refine (proj1 (unready_tasks_deliver_nothing Samples.delivers AsciiRuntime.runtime
                   [(lit "push", Samples.push_main); (lit "issues", Samples.issue_8)]
                   Samples.idle _)).
  exact I.
Defined.

(** ** The push builder *)

Ltac unify_reads :=
  repeat match goal with
         | H1 : ?t = Ok ?x, H2 : ?t = Ok ?y |- _ =>
             rewrite H1 in H2; first [injection H2 as H2; try subst | clear H2]
         end.

Lemma occurs_tail (old : str) (c : N) (s : str) : occurs old s -> occurs old (c :: s).
Proof. intros (a & b & ->). now exists (c :: a), b. Qed.

(** Where [old] does not occur, [replace] changes nothing. *)
Lemma replace_absent (old new s : str) :
  old <> [] -> ~ occurs old s -> replace s old new = s.
Proof.
  intros Hold. destruct old as [|o old]; [congruence|]. unfold replace.
  induction s as [|c s IH]; intros Hnot; [reflexivity|].
  cbn [replace_from]. destruct (startswith (c :: s) (o :: old)) eqn:Hstart.
  - exfalso. apply Hnot. apply startswith_split in Hstart.
    exists [], (skipn (length (o :: old)) (c :: s)). exact Hstart.
  - f_equal. apply IH. intros Hocc. apply Hnot. now apply occurs_tail.
Qed.

Lemma push_of_event (rt : Runtime) (now : instant) (payload : json) (e : Embed) :
  fst (create_event_embed rt now (lit "push") payload) = Some e ->
  create_push_embed rt now payload = Ok e.
Proof.
  intros Hsome. apply create_event_embed_some in Hsome as (build & Hbuild & Hrun).
  change (builder_of rt now (lit "push")) with (Some (create_push_embed rt now))
    in Hbuild.
  now injection Hbuild as <-.
Qed.

(** The push builder, taken apart: what it read, the embed before the
    latest-commit step, and what that step added. *)
Lemma push_inv (rt : Runtime) (now : instant) (payload : json) (e : Embed) :
  create_push_embed rt now payload = Ok e ->
  exists ref commits n base,
    py_get payload "ref" (jstr "") = Ok (JStr ref) /\
    py_get payload "commits" (JList []) = Ok commits /\
    py_len commits = Ok n /\
    title base
    = 0x1f4dd%N :: lit " New Push to " ++
      (if startswith ref (lit "refs/heads/")
       then replace ref (lit "refs/heads/") (lit "")
       else ref) /\
    (exists f1 f2,
       fields base
       = [f1; f2; {| name := lit "Commits"; value := JStr (int_str (Z.of_nat n));
                     inline := true |}]) /\
    title e = title base /\
    ((truthy commits = false /\ fields e = fields base) \/
     (truthy commits = true /\
      exists latest message len url shown,
        last_item commits = Ok latest /\
        py_get latest "message" (jstr "No message") = Ok message /\
        py_len message = Ok len /\
        py_get latest "url" (jstr "#") = Ok url /\
        (if Nat.ltb 100 len
         then exists head, slice_to 97 message = Ok head /\
                           add_str head (lit "...") = Ok shown
         else shown = message) /\
        fields e
        = fields base ++
          [{| name := lit "Latest Commit";
              value := JStr (lit "[" ++ py_str rt shown ++ lit "](" ++
                             py_str rt url ++ lit ")");
              inline := false |}])).
Proof.
  intros H. unfold create_push_embed in H. bind_inv H. unify_reads.
  injection H as <-.
  match goal with
  | HA : as_str ?r = Ok ?s |- _ =>
      destruct r; try discriminate HA; cbn [as_str] in HA; injection HA as <-
  end.
  match goal with
  | HE : (if truthy ?c then _ else _) = Ok ?d |- _ =>
      match type of HE with
      | context [add_field ?b (lit "Latest Commit")] =>
          exists s, c; eexists; exists b
      end;
      destruct (truthy c) eqn:Ht
  end.
  - match goal with
    | HE : bind _ _ = Ok _ |- _ => bind_inv HE; injection HE as <-
    end.
    repeat split; try eassumption; try reflexivity.
    + do 2 eexists. reflexivity.
    + right. split; [reflexivity|].
      match goal with
      | HL : last_item _ = Ok ?l, HM : py_get ?l "message" _ = Ok ?m,
        HN : py_len ?m = Ok ?k, HU : py_get ?l "url" _ = Ok ?u,
        HS : (if Nat.ltb 100 ?k then _ else _) = Ok ?sh |- _ =>
          exists l, m, k, u, sh; repeat split; try assumption;
          destruct (Nat.ltb 100 k);
          [ bind_inv HS; eauto | now injection HS as <- ]
      end.
  - match goal with
    | HE : Ok _ = Ok _ |- _ => injection HE as <-
    end.
    repeat split; try eassumption; try reflexivity.
    + do 2 eexists. reflexivity.
    + left. split; reflexivity.
Qed.

Lemma push_title (rt : Runtime) (now : instant) (payload : json) (ref : str)
    (e : Embed) :
  py_get payload "ref" (jstr "") = Ok (JStr ref) ->
  create_push_embed rt now payload = Ok e ->
  title e
  = 0x1f4dd%N :: lit " New Push to " ++
    (if startswith ref (lit "refs/heads/")
     then replace ref (lit "refs/heads/") (lit "")
     else ref).
Proof.
  intros Href H.
  destruct (push_inv rt now payload e H)
    as (ref' & commits & n & base & Href' & _ & _ & Htitle & _ & He & _).
  rewrite Href in Href'. injection Href' as <-. congruence.
Qed.

(** X7.  For a push whose ref is a string and which renders: a ref that does
    not start with [refs/heads/], such as the tag ref [refs/tags/v1.0], is
    shown in the title in full; a ref [refs/heads/B] in which [refs/heads/]
    does not occur again is shown as [B]. *)
Theorem push_title_names_the_ref (rt : Runtime) (now : instant) (payload : json)
    (ref : str) (e : Embed) :
  py_get payload "ref" (jstr "") = Ok (JStr ref) ->
  fst (create_event_embed rt now (lit "push") payload) = Some e ->
  (startswith ref (lit "refs/heads/") = false ->
   title e = 0x1f4dd%N :: lit " New Push to " ++ ref) /\
  (forall branch,
     ref = lit "refs/heads/" ++ branch ->
     ~ occurs (lit "refs/heads/") branch ->
     title e = 0x1f4dd%N :: lit " New Push to " ++ branch).
Proof.
  intros Href Hsome. apply push_of_event in Hsome.
  rewrite (push_title rt now payload ref e Href Hsome). split.
  - intros ->. reflexivity.
  - intros branch -> Hnot. rewrite startswith_app.
    rewrite replace_prefixed by discriminate.
    rewrite replace_absent by (discriminate || exact Hnot). reflexivity.
Qed.

Lemma push_title_names_the_ref_witness :
  exists e,
    fst (create_event_embed AsciiRuntime.runtime 0%Z (lit "push") Cases.push_tag)
    = Some e /\
    title e = 0x1f4dd%N :: lit " New Push to refs/tags/v1.0".
Proof.
  eexists.
  assert (Hsome : fst (create_event_embed AsciiRuntime.runtime 0%Z (lit "push")
                         Cases.push_tag) = Some _) by (vm_compute; reflexivity).
  split; [exact Hsome|].
  exact (proj1 (push_title_names_the_ref AsciiRuntime.runtime 0%Z Cases.push_tag
                  (lit "refs/tags/v1.0") _ eq_refl Hsome) eq_refl).
Defined.

(** X8.  For a push whose [commits] is a list and which renders: the third
    field counts the commits; with no commit there are three fields and no
    Latest Commit; otherwise the fourth and last field links the last commit
    of the list, with a message longer than 100 characters cut to its first
    97 followed by ["..."], and with [#] as the link when the commit has no
    url. *)
Theorem push_commit_fields (rt : Runtime) (now : instant) (payload : json)
    (commits : list json) (e : Embed) :
  py_get payload "commits" (JList []) = Ok (JList commits) ->
  fst (create_event_embed rt now (lit "push") payload) = Some e ->
  nth_error (fields e) 2
  = Some {| name := lit "Commits";
            value := JStr (int_str (Z.of_nat (length commits)));
            inline := true |} /\
  (commits = [] -> length (fields e) = 3) /\
  (forall front c m,
     commits = front ++ [JDict c] ->
     lookup (lit "message") c = Some (JStr m) ->
     nth_error (fields e) 3
     = Some {| name := lit "Latest Commit";
               value :=
                 JStr (lit "[" ++
                       (if Nat.ltb 100 (length m)
                        then firstn 97 m ++ lit "..." else m) ++
                       lit "](" ++
                       py_str rt (match lookup (lit "url") c with
                                  | Some u => u
                                  | None => jstr "#"
                                  end) ++
                       lit ")");
               inline := false |} /\
     length (fields e) = 4).
Proof.
  intros Hcommits Hsome. apply push_of_event in Hsome.
  destruct (push_inv rt now payload e Hsome)
    as (ref & commits' & n & base & _ & Hcommits' & Hn & _ & (f1 & f2 & Hbase)
        & _ & Hstep).
  rewrite Hcommits in Hcommits'. injection Hcommits' as <-.
  cbn [py_len] in Hn. injection Hn as <-.
  split; [|split].
  - destruct Hstep as [(_ & ->) | (_ & latest & message & len & url & shown & _
                                   & _ & _ & _ & _ & ->)];
      rewrite Hbase; reflexivity.
  - intros ->. destruct Hstep as [(_ & ->) | (Ht & _)]; [|discriminate Ht].
    now rewrite Hbase.
  - intros front c m -> Hmessage.
    destruct Hstep as [(Ht & _) | (_ & latest & message & len & url & shown
                                   & Hlast & Hmsg & Hlen & Hurl & Hshown & ->)].
    { destruct front; discriminate Ht. }
    unfold last_item in Hlast. rewrite rev_app_distr in Hlast.
    cbn [rev app] in Hlast. injection Hlast as <-.
    unfold py_get in Hmsg, Hurl. rewrite Hmessage in Hmsg. injection Hmsg as <-.
    cbn [py_len] in Hlen. injection Hlen as <-.
    assert (Hu : url = match lookup (lit "url") c with
                       | Some u => u
                       | None => jstr "#"
                       end)
      by (destruct (lookup (lit "url") c); congruence).
    assert (Hs : shown = JStr (if Nat.ltb 100 (length m)
                               then firstn 97 m ++ lit "..." else m)).
    { revert Hshown. destruct (Nat.ltb 100 (length m)); intros Hshown;
        [|exact Hshown].
      destruct Hshown as (head & Hhead & Hadd).
      assert (Hh : head = JStr (firstn 97 m))
        by (unfold slice_to in Hhead; congruence).
      subst head. unfold add_str in Hadd. congruence. }
    subst url shown. rewrite Hbase. cbn [py_str]. split; reflexivity.
Qed.

Lemma push_commit_fields_witness :
  exists e,
    fst (create_event_embed AsciiRuntime.runtime 0%Z (lit "push") Cases.push_two)
    = Some e /\
    nth_error (fields e) 2
    = Some {| name := lit "Commits"; value := jstr "2"; inline := true |} /\
    nth_error (fields e) 3
    = Some {| name := lit "Latest Commit";
              value := JStr (lit "[" ++ firstn 97 Cases.long_message ++
                             lit "...](u2)");
              inline := false |}.
Proof.
  eexists.
  assert (Hsome : fst (create_event_embed AsciiRuntime.runtime 0%Z (lit "push")
                         Cases.push_two) = Some _) by (vm_compute; reflexivity).
  split; [exact Hsome|].
  pose proof (push_commit_fields AsciiRuntime.runtime 0%Z Cases.push_two
                Cases.two_commits _ eq_refl Hsome) as (Hcount & _ & Hlast).
  split; [exact Hcount|].
  exact (proj1 (Hlast [Samples.dict [("message"%string, jstr "first")]]
                  Cases.second_commit Cases.long_message eq_refl eq_refl)).
Defined.

(** ** Payloads of the wrong shape *)

Ltac each_event Hin :=
  cbn [supported_events In] in Hin;
  destruct Hin as [<- | [<- | [<- | [<- | [<- | [<- | []]]]]]].

Lemma builder_of_push (rt : Runtime) (now : instant) :
  builder_of rt now (lit "push") = Some (create_push_embed rt now).
Proof. reflexivity. Qed.

Lemma builder_of_pull_request (rt : Runtime) (now : instant) :
  builder_of rt now (lit "pull_request") = Some (create_pull_request_embed rt now).
Proof. reflexivity. Qed.

Lemma builder_of_issues (rt : Runtime) (now : instant) :
  builder_of rt now (lit "issues") = Some (create_issue_embed rt now).
Proof. reflexivity. Qed.

Lemma builder_of_release (rt : Runtime) (now : instant) :
  builder_of rt now (lit "release") = Some (create_release_embed rt now).
Proof. reflexivity. Qed.

Lemma builder_of_create (rt : Runtime) (now : instant) :
  builder_of rt now (lit "create") = Some (create_create_embed rt now).
Proof. reflexivity. Qed.

Lemma builder_of_delete (rt : Runtime) (now : instant) :
  builder_of rt now (lit "delete") = Some (create_delete_embed rt now).
Proof. reflexivity. Qed.

Ltac pick_builder H :=
  first [ rewrite builder_of_push in H | rewrite builder_of_pull_request in H
        | rewrite builder_of_issues in H | rewrite builder_of_release in H
        | rewrite builder_of_create in H | rewrite builder_of_delete in H ].

(** X9.  For each of the six supported event types, a payload that is not a
    JSON object (an array, a string, a number, [null]) renders to [None],
    with an ERROR record: the first [payload.get] raises and is caught. *)
Theorem non_object_payload_renders_none (rt : Runtime) (now : instant)
    (event_type : str) (payload : json) :
  In event_type supported_events ->
  (forall d, payload <> JDict d) ->
  create_event_embed rt now event_type payload
  = (None, [(ERROR, "Error creating embed for {event_type}: {e}"%string)]).
Proof.
  intros Hin Hnot. rewrite create_event_embed_builder.
  assert (Hraise : forall key default, py_get payload key default = Raise AttributeError).
  { intros key default. destruct payload; try reflexivity.
    exfalso. eapply Hnot. reflexivity. }
  each_event Hin;
    [ rewrite builder_of_push; unfold create_push_embed
    | rewrite builder_of_pull_request; unfold create_pull_request_embed
    | rewrite builder_of_issues; unfold create_issue_embed
    | rewrite builder_of_release; unfold create_release_embed
    | rewrite builder_of_create; unfold create_create_embed
    | rewrite builder_of_delete; unfold create_delete_embed ];
    rewrite Hraise; reflexivity.
Qed.

Lemma non_object_payload_renders_none_witness :
  create_event_embed AsciiRuntime.runtime 0%Z (lit "issues") (JList [])
  = (None, [(ERROR, "Error creating embed for {event_type}: {e}"%string)]).
Proof.
  apply non_object_payload_renders_none.
  - simpl. tauto.
  - discriminate.
Defined.

(** X10.  Each builder calls a [str] method on one payload value to make the
    title: [ref] for a push, [ref_type] for create and delete, [action] for
    the others.  When that value is present and is not a string ([null], a
    number, a list), the event renders to [None]. *)
Theorem title_value_must_be_a_string (rt : Runtime) (now : instant)
    (event_type : str) (payload v : json) :
  In event_type supported_events ->
  py_get payload (title_key event_type) (jstr "") = Ok v ->
  (forall s, v <> JStr s) ->
  fst (create_event_embed rt now event_type payload) = None.
Proof.
  intros Hin Hget Hnot.
  destruct (fst (create_event_embed rt now event_type payload)) as [e|] eqn:Hsome;
    [exfalso | reflexivity].
  apply create_event_embed_some in Hsome as (build & Hbuild & Hrun).
  each_event Hin; pick_builder Hbuild; injection Hbuild as <-;
    change (title_key _) with "ref"%string in Hget
    || change (title_key _) with "ref_type"%string in Hget
    || change (title_key _) with "action"%string in Hget;
    [ unfold create_push_embed in Hrun
    | unfold create_pull_request_embed in Hrun
    | unfold create_issue_embed in Hrun
    | unfold create_release_embed in Hrun
    | unfold create_create_embed in Hrun
    | unfold create_delete_embed in Hrun ];
    bind_inv Hrun; unify_reads;
    match goal with
    | HA : as_str ?x = Ok ?s |- _ =>
        destruct x; try discriminate HA; eapply Hnot; reflexivity
    end.
Qed.

Lemma title_value_must_be_a_string_witness :
  fst (create_event_embed AsciiRuntime.runtime 0%Z (lit "pull_request")
         Cases.pr_null_action) = None.
Proof.
  apply (title_value_must_be_a_string AsciiRuntime.runtime 0%Z
           (lit "pull_request") Cases.pr_null_action JNull).
  - simpl. tauto.
  - reflexivity.
  - discriminate.
Defined.

(** ** The shape of a rendered embed *)

(** The description step adds at most the Description field. *)
Lemma add_description_cases (base : Embed) (body : json) (e : Embed) :
  add_description base body = Ok e ->
  e = base \/ exists v, e = add_field base (lit "Description") v false.
Proof.
  intros H. destruct (truthy body) eqn:Ht.
  - right. eapply add_description_truthy; eassumption.
  - left. rewrite add_description_falsy in H by exact Ht. congruence.
Qed.

(** X11.  The description of a release is its [name] whenever the key is
    present, even when the name is [null], which is then shown as
    [**None**]; the tag name is used only when the key [name] is absent, and
    ["No title"] when both are. *)
Theorem release_description_fallback (rt : Runtime) (now : instant)
    (payload : json) (release : list (str * json)) (e : Embed) :
  py_get payload "release" (JDict []) = Ok (JDict release) ->
  fst (create_event_embed rt now (lit "release") payload) = Some e ->
  description e
  = lit "**" ++
    py_str rt (match lookup (lit "name") release with
               | Some n => n
               | None =>
                   match lookup (lit "tag_name") release with
                   | Some t => t
                   | None => jstr "No title"
                   end
               end) ++
    lit "**" /\
  (lookup (lit "name") release = Some JNull -> description e = lit "**None**").
Proof.
  intros Hrelease Hsome.
  apply create_event_embed_some in Hsome as (build & Hbuild & Hrun).
  rewrite builder_of_release in Hbuild. injection Hbuild as <-.
  unfold create_release_embed in Hrun. bind_inv Hrun. unify_reads.
  injection Hrun as <-.
  match goal with
  | |- ?A /\ _ => assert (Hdesc : A)
  end.
  { match goal with
    | HD : add_description ?b _ = Ok ?d |- _ =>
        apply add_description_cases in HD; destruct HD as [-> | (val & ->)]
    end;
    cbn [description set_timestamp set_footer set_author add_field new_embed];
    repeat match goal with
           | HG : py_get (JDict release) _ _ = Ok _ |- _ =>
               unfold py_get in HG
           end;
    destruct (lookup (lit "name") release);
    destruct (lookup (lit "tag_name") release); congruence. }
  split; [exact Hdesc|]. intros Hnull. rewrite Hdesc, Hnull. reflexivity.
Qed.

Lemma release_description_fallback_witness :
  exists e,
    fst (create_event_embed AsciiRuntime.runtime 0%Z (lit "release")
           Cases.release_untitled) = Some e /\
    description e = lit "**None**".
Proof.
  eexists.
  assert (Hsome : fst (create_event_embed AsciiRuntime.runtime 0%Z (lit "release")
                         Cases.release_untitled) = Some _)
    by (vm_compute; reflexivity).
  split; [exact Hsome|].
  exact (proj2 (release_description_fallback AsciiRuntime.runtime 0%Z
                  Cases.release_untitled Cases.untitled_release _ eq_refl Hsome)
               eq_refl).
Defined.

Lemma has_field_nth (field_name : str) (e : Embed) (i : nat) (f : Field) :
  nth_error (fields e) i = Some f -> name f = field_name ->
  has_field field_name e.
Proof. intros Hnth Hname. exists f. split; [eapply nth_error_In|]; eauto. Qed.

Ltac open_optional_step :=
  try match goal with
      | HD : add_description _ _ = Ok _ |- _ =>
          apply add_description_cases in HD; destruct HD as [-> | (? & ->)]
      end;
  try match goal with
      | HE : (if truthy ?c then _ else _) = Ok _ |- _ =>
          destruct (truthy c);
          [ bind_inv HE; injection HE as <- | injection HE as <- ]
      end.

Ltac shape_checks :=
  cbn [title timestamp author footer fields set_timestamp set_footer set_author
       add_field new_embed app length];
  repeat split;
  try discriminate; try lia;
  try (intros Hnil; apply app_eq_nil in Hnil as [_ Hnil]; discriminate Hnil);
  try (eexists; split; reflexivity);
  try (first [ eapply (has_field_nth _ _ 0); reflexivity
             | eapply (has_field_nth _ _ 1); reflexivity ]).

(** X12.  Every embed the renderer returns, for any event type and payload,
    has a non-empty title (so [if embed:] holds), the clock reading of the
    call as timestamp, an author, a footer that starts with
    ["Patchy - GitHub "], a Repository field, and between two and four
    fields in all. *)
Theorem rendered_embed_shape (rt : Runtime) (now : instant) (event_type : str)
    (payload : json) (e : Embed) :
  fst (create_event_embed rt now event_type payload) = Some e ->
  title e <> [] /\
  timestamp e = Some now /\
  author e <> None /\
  (exists text, footer e = Some text /\
                startswith text (lit "Patchy - GitHub ") = true) /\
  has_field (lit "Repository") e /\
  2 <= length (fields e) <= 4.
Proof.
  intros Hsome. apply create_event_embed_some in Hsome as (build & Hbuild & Hrun).
  unfold builder_of in Hbuild.
  repeat match type of Hbuild with
         | context [str_eqb event_type ?x] => destruct (str_eqb event_type x)
         end;
    try discriminate Hbuild; injection Hbuild as <-;
    [ unfold create_push_embed in Hrun
    | unfold create_pull_request_embed in Hrun
    | unfold create_issue_embed in Hrun
    | unfold create_release_embed in Hrun
    | unfold create_create_embed in Hrun
    | unfold create_delete_embed in Hrun ];
    bind_inv Hrun; injection Hrun as <-; open_optional_step; shape_checks.
Qed.

Lemma rendered_embed_shape_witness :
  exists e,
    fst (create_event_embed AsciiRuntime.runtime 0%Z (lit "push") Samples.push_main)
    = Some e /\
    title e <> [] /\ 2 <= length (fields e) <= 4.
Proof.
  eexists.
  assert (Hsome : fst (create_event_embed AsciiRuntime.runtime 0%Z (lit "push")
                         Samples.push_main) = Some _) by (vm_compute; reflexivity).
  split; [exact Hsome|].
  pose proof (rendered_embed_shape AsciiRuntime.runtime 0%Z (lit "push")
                Samples.push_main _ Hsome) as (Htitle & _ & _ & _ & _ & Hcount).
  exact (conj Htitle Hcount).
Defined.

(** ** Payloads of the expected shape *)

Lemma py_get_dict (d : list (str * json)) (key : string) (default : json) :
  py_get (JDict d) key default
  = Ok (match lookup (lit key) d with Some x => x | None => default end).
Proof. unfold py_get. destruct (lookup (lit key) d); reflexivity. Qed.

Lemma returned_ok (e : Embed) :
  try_except (returned (Ok e))
    (fun _ => (None, [(ERROR, "Error creating embed for {event_type}: {e}"%string)]))
  = (Some e, []).
Proof. reflexivity. Qed.

(** X13.  A push payload of the shape GitHub sends always renders: when
    [repository] and [pusher] are objects or absent, [ref] is a string or
    absent, [commits] is a list or absent, and the last commit, if there is
    one, is an object whose [message] is a string or absent, the renderer
    returns an embed and logs nothing.  No other key is required. *)
Theorem well_formed_push_renders (rt : Runtime) (now : instant) (payload : json)
    (repository pusher : list (str * json)) (ref : str) (commits : list json) :
  py_get payload "repository" (JDict []) = Ok (JDict repository) ->
  py_get payload "pusher" (JDict []) = Ok (JDict pusher) ->
  py_get payload "ref" (jstr "") = Ok (JStr ref) ->
  py_get payload "commits" (JList []) = Ok (JList commits) ->
  (forall front latest,
     commits = front ++ [latest] ->
     exists c m, latest = JDict c /\
                 py_get latest "message" (jstr "No message") = Ok (JStr m)) ->
  exists e, create_event_embed rt now (lit "push") payload = (Some e, []).
Proof.
  intros Hrepo Hpusher Href Hcommits Hlast.
  rewrite create_event_embed_builder, builder_of_push.
  destruct payload as [| | | | | |d]; try discriminate Hrepo.
  unfold create_push_embed, repository_link.
  rewrite Hrepo, Hpusher, Href, Hcommits.
  repeat (progress (rewrite ?py_get_dict; cbn [bind as_str py_len])).
  destruct commits as [|c0 commits0] eqn:Hcs.
  - cbn [truthy bind].
    repeat (progress (rewrite ?py_get_dict; cbn [bind])).
    rewrite returned_ok. eauto.
  - rewrite <- Hcs in *.
    destruct (exists_last (l := commits)) as (front & latest & Hsplit);
      [congruence|].
    destruct (Hlast front latest Hsplit) as (c & m & -> & Hmessage).
    assert (Htruthy : truthy (JList commits) = true) by (rewrite Hcs; reflexivity).
    assert (Hitem : last_item (JList commits) = Ok (JDict c)).
    { rewrite Hsplit. unfold last_item. rewrite rev_app_distr. reflexivity. }
    rewrite Htruthy, Hitem. cbn [bind]. rewrite Hmessage.
    cbn [bind py_len].
    destruct (Nat.ltb 100 (length m)); cbn [bind slice_to add_str];
      repeat (progress (rewrite ?py_get_dict; cbn [bind]));
      rewrite returned_ok; eauto.
Qed.

Lemma well_formed_push_renders_witness :
  exists e,
    create_event_embed AsciiRuntime.runtime 0%Z (lit "push") Samples.push_main
    = (Some e, []).
Proof.
  apply (well_formed_push_renders AsciiRuntime.runtime 0%Z Samples.push_main
           [(lit "name", jstr "r")] [(lit "name", jstr "u")]
           (lit "refs/heads/main")
           [Samples.dict [("message"%string, jstr "m"); ("url"%string, jstr "x")]]
           eq_refl eq_refl eq_refl eq_refl).
  intros front latest Hsplit.
  destruct front as [|c0 front].
  - injection Hsplit as <-. do 2 eexists. split; reflexivity.
  - injection Hsplit as _ Hrest. destruct front; discriminate Hrest.
Defined.

Lemma add_description_total (base : Embed) (body : json) :
  body = JNull \/ (exists s, body = JStr s) ->
  exists e, add_description base body = Ok e.
Proof.
  intros [-> | (s & ->)].
  - rewrite add_description_falsy by reflexivity. eauto.
  - destruct s as [|c s].
    + rewrite add_description_falsy by reflexivity. eauto.
    + rewrite add_description_str by discriminate. eauto.
Qed.

(** X14.  A pull-request payload of the shape GitHub sends always renders:
    when [pull_request], [repository] and the pull request's [user] are
    objects or absent, [action] and the pull request's [state] are strings
    or absent, and its [body] is a string, [null] or absent, the renderer
    returns an embed and logs nothing. *)
Theorem well_formed_pull_request_renders (rt : Runtime) (now : instant)
    (payload : json) (pr repository user : list (str * json))
    (action state : str) (body : json) :
  py_get payload "pull_request" (JDict []) = Ok (JDict pr) ->
  py_get payload "action" (jstr "") = Ok (JStr action) ->
  py_get payload "repository" (JDict []) = Ok (JDict repository) ->
  py_get (JDict pr) "state" (jstr "unknown") = Ok (JStr state) ->
  py_get (JDict pr) "user" (JDict []) = Ok (JDict user) ->
  py_get (JDict pr) "body" (jstr "") = Ok body ->
  body = JNull \/ (exists s, body = JStr s) ->
  exists e, create_event_embed rt now (lit "pull_request") payload = (Some e, []).
Proof.
  intros Hpr Haction Hrepo Hstate Huser Hbody Hshape.
  rewrite create_event_embed_builder, builder_of_pull_request.
  unfold create_pull_request_embed, repository_link.
  rewrite Hpr, Haction, Hrepo. cbn [bind table_get as_str].
  rewrite Hstate, Huser, Hbody.
  repeat (progress (rewrite ?py_get_dict; cbn [bind as_str])).
  match goal with
  | |- context [add_description ?b body] =>
      destruct (add_description_total b body Hshape) as (described & ->)
  end.
  repeat (progress (rewrite ?py_get_dict; cbn [bind])).
  rewrite returned_ok. eauto.
Qed.

Lemma well_formed_pull_request_renders_witness :
  exists e,
    create_event_embed AsciiRuntime.runtime 0%Z (lit "pull_request") Samples.pr_600
    = (Some e, []).
Proof.
  apply (well_formed_pull_request_renders AsciiRuntime.runtime 0%Z Samples.pr_600
           [(lit "title", jstr "T"); (lit "body", JStr Samples.body_600)]
           [] [] (lit "opened") (lit "unknown") (JStr Samples.body_600)
           eq_refl eq_refl eq_refl eq_refl eq_refl eq_refl).
  right. eexists. reflexivity.
Defined.

(** The names of labels that are objects with a string name, and their
    joining. *)
Lemma label_names_total (labels : list json) :
  (forall label, In label labels ->
     exists d text, label = JDict d /\
                    py_get label "name" (jstr "") = Ok (JStr text)) ->
  exists texts,
    comprehension (fun label => py_get label "name" (jstr "")) labels
    = Ok (map JStr texts).
Proof.
  induction labels as [|label labels IH]; intros Hall.
  - exists []. reflexivity.
  - destruct (Hall label (or_introl eq_refl)) as (d & text & _ & Hname).
    destruct IH as (texts & Hrest).
    { intros l Hin. apply Hall. now right. }
    exists (text :: texts). cbn [comprehension]. rewrite Hname. cbn [bind].
    rewrite Hrest. reflexivity.
Qed.

Lemma py_join_strings (sep : str) (texts : list str) :
  py_join sep (map JStr texts) = Ok (join sep texts).
Proof.
  unfold py_join.
  assert (H : comprehension (fun x => match x with
                                      | JStr s => Ok s
                                      | _ => Raise TypeError
                                      end) (map JStr texts) = Ok texts).
  { induction texts as [|t texts IH]; [reflexivity|].
    cbn [map comprehension bind]. rewrite IH. reflexivity. }
  rewrite H. reflexivity.
Qed.

(** X15.  An issue payload of the shape GitHub sends always renders: when
    [issue], [repository] and the issue's [user] are objects or absent,
    [action] and the issue's [state] are strings or absent, and [labels] is a
    list whose first five items are objects with a string [name] (or without
    one), the renderer returns an embed and logs nothing.  Labels after the
    fifth are never inspected: they may be any values. *)
Theorem well_formed_issue_renders (rt : Runtime) (now : instant)
    (payload : json) (issue repository user : list (str * json))
    (action state : str) (labels : list json) :
  py_get payload "issue" (JDict []) = Ok (JDict issue) ->
  py_get payload "action" (jstr "") = Ok (JStr action) ->
  py_get payload "repository" (JDict []) = Ok (JDict repository) ->
  py_get (JDict issue) "state" (jstr "unknown") = Ok (JStr state) ->
  py_get (JDict issue) "user" (JDict []) = Ok (JDict user) ->
  py_get (JDict issue) "labels" (JList []) = Ok (JList labels) ->
  (forall label, In label (firstn 5 labels) ->
     exists d text, label = JDict d /\
                    py_get label "name" (jstr "") = Ok (JStr text)) ->
  exists e, create_event_embed rt now (lit "issues") payload = (Some e, []).
Proof.
  intros Hissue Haction Hrepo Hstate Huser Hlabels Hfive.
  rewrite create_event_embed_builder, builder_of_issues.
  unfold create_issue_embed, repository_link.
  rewrite Hissue, Haction, Hrepo. cbn [bind table_get as_str].
  rewrite Hstate, Huser, Hlabels.
  repeat (progress (rewrite ?py_get_dict; cbn [bind as_str])).
  destruct (truthy (JList labels)).
  - cbn [slice_to bind iterate].
    destruct (label_names_total (firstn 5 labels) Hfive) as (texts & ->).
    cbn [bind]. rewrite py_join_strings. cbn [bind].
    repeat (progress (rewrite ?py_get_dict; cbn [bind])).
    rewrite returned_ok. eauto.
  - cbn [bind].
    repeat (progress (rewrite ?py_get_dict; cbn [bind])).
    rewrite returned_ok. eauto.
Qed.

Lemma well_formed_issue_renders_witness :
  exists e,
    create_event_embed AsciiRuntime.runtime 0%Z (lit "issues") Cases.issue_odd_sixth
    = (Some e, []).
Proof.
  apply (well_formed_issue_renders AsciiRuntime.runtime 0%Z Cases.issue_odd_sixth
           [(lit "labels", JList Cases.labels_odd_sixth)] [] []
           (lit "opened") (lit "unknown") Cases.labels_odd_sixth
           eq_refl eq_refl eq_refl eq_refl eq_refl eq_refl).
  intros label Hin. cbn in Hin.
  repeat (destruct Hin as [<- | Hin]; [do 2 eexists; split; reflexivity|]).
  contradiction.
Defined.

(** X16.  A create or delete event renders whenever [ref_type] is a string
    or absent and [repository] and [sender] are objects or absent; [ref] may
    hold any value, it is only formatted.  The title is the emoji, the
    title-cased [ref_type] and [Created] or [Deleted]: for a creation the
    emoji follows the exact strings [branch] and [tag], for a deletion it is
    the same whatever the [ref_type]. *)
Theorem create_and_delete_render (rt : Runtime) (now : instant) (payload ref : json)
    (ref_type : str) (repository sender : list (str * json)) :
  py_get payload "ref" (jstr "") = Ok ref ->
  py_get payload "ref_type" (jstr "") = Ok (JStr ref_type) ->
  py_get payload "repository" (JDict []) = Ok (JDict repository) ->
  py_get payload "sender" (JDict []) = Ok (JDict sender) ->
  (exists e,
     create_event_embed rt now (lit "create") payload = (Some e, []) /\
     title e
     = (if str_eqb (lit "branch") ref_type then [0x1f33f%N]
        else if str_eqb (lit "tag") ref_type then [0x1f3f7%N; 0xfe0f%N]
        else [0x1f4dd%N]) ++
       lit " " ++ str_title rt ref_type ++ lit " Created" /\
     color e = 0x17a2b8%Z /\
     has_field (lit "Created by") e) /\
  (exists e,
     create_event_embed rt now (lit "delete") payload = (Some e, []) /\
     title e
     = [0x1f5d1%N; 0xfe0f%N] ++ lit " " ++ str_title rt ref_type ++ lit " Deleted" /\
     color e = 0xdc3545%Z /\
     has_field (lit "Deleted by") e).
Proof.
  intros Href Htype Hrepo Hsender. split.
  - rewrite create_event_embed_builder, builder_of_create.
    unfold create_create_embed, repository_link.
    rewrite Href, Htype, Hrepo, Hsender.
    cbn [bind table_get as_str find fst snd].
    repeat (progress (rewrite ?py_get_dict; cbn [bind])).
    rewrite returned_ok. eexists. split; [reflexivity|].
    cbn [title color set_timestamp set_footer set_author add_field new_embed].
    split; [|split; [reflexivity|]].
    + destruct (str_eqb (lit "branch") ref_type); [reflexivity|].
      destruct (str_eqb (lit "tag") ref_type); reflexivity.
    + unfold has_field. cbn. eauto.
  - rewrite create_event_embed_builder, builder_of_delete.
    unfold create_delete_embed, repository_link.
    rewrite Href, Htype, Hrepo, Hsender.
    cbn [bind table_get as_str find fst snd].
    repeat (progress (rewrite ?py_get_dict; cbn [bind])).
    rewrite returned_ok. eexists. split; [reflexivity|].
    cbn [title color set_timestamp set_footer set_author add_field new_embed].
    split; [|split; [reflexivity|]].
    + destruct (str_eqb (lit "branch") ref_type); [reflexivity|].
      destruct (str_eqb (lit "tag") ref_type); reflexivity.
    + unfold has_field. cbn. eauto.
Qed.

Lemma create_and_delete_render_witness :
  exists e,
    create_event_embed AsciiRuntime.runtime 0%Z (lit "delete") Cases.branch_numeric_ref
    = (Some e, []) /\
    title e = [0x1f5d1%N; 0xfe0f%N] ++ lit " Branch Deleted".
Proof.
  destruct (proj2 (create_and_delete_render AsciiRuntime.runtime 0%Z
                     Cases.branch_numeric_ref (JInt 5) (lit "branch") [] []
                     eq_refl eq_refl eq_refl eq_refl))
    as (e & Hrender & Htitle & _).
  exists e. split; [exact Hrender|]. rewrite Htitle. reflexivity.
Defined.

(** ** The lifecycle of the bot *)

(** X17.  The error notification carries at most the first 1000 characters
    of the message, between two code fences: its only field holds
    [min(1000, len)] + 6 characters, 1006 at most.  It is sent with one call
    when there is a channel, and with none when there is not; a failing call
    is not repeated. *)
Theorem error_notification_is_capped (backend : nat -> Embed -> send_result)
    (self : Bot) (w : World) (error_message event_type : str) :
  (exists text,
     fields (error_embed error_message event_type (clock w))
     = [{| name := lit "Error Details"; value := JStr text; inline := false |}] /\
     text = lit "```" ++ firstn 1000 error_message ++ lit "```" /\
     length text = Nat.min 1000 (length error_message) + 6 /\
     length text <= 1006) /\
  (target_channel self = None ->
   calls (send_error_notification backend self w error_message event_type)
   = calls w) /\
  (target_channel self <> None ->
   calls (send_error_notification backend self w error_message event_type)
   = calls w ++
     [(error_embed error_message event_type (clock w),
       backend (length (calls w))
         (error_embed error_message event_type (clock w)))]).
Proof.
  split; [|split].
  - exists (lit "```" ++ firstn 1000 error_message ++ lit "```").
    split; [reflexivity|].
    assert (Hlen : length (firstn 1000 error_message)
                   = Nat.min 1000 (length error_message))
      by apply length_firstn.
    split; [reflexivity|].
    split; rewrite !length_app, Hlen; change (length (lit "```")) with 3; lia.
  - intros Hnone. unfold send_error_notification. now rewrite Hnone.
  - intros Hsome. unfold send_error_notification, channel_send.
    destruct (target_channel self); [|congruence].
    destruct (backend (length (calls w))
                (error_embed error_message event_type (clock w))); reflexivity.
Qed.

(** X18.  [on_ready] leaves the bot with the channel the cache gives for the
    configured id.  When there is none, nothing is sent and every later
    notification returns [False] without a call.  When there is one, exactly
    one startup message is attempted, and whether or not it is delivered the
    channel stays set: a later notification is attempted, and succeeds
    exactly when the backend delivers it. *)
Theorem on_ready_sets_the_channel (backend : nat -> Embed -> send_result)
    (get_channel : Z -> option Z) (config : Config) (self : Bot) (w : World) :
  target_channel (fst (on_ready backend get_channel config self w))
  = get_channel (DISCORD_CHANNEL_ID config) /\
  clock (snd (on_ready backend get_channel config self w)) = clock w /\
  (get_channel (DISCORD_CHANNEL_ID config) = None ->
   calls (snd (on_ready backend get_channel config self w)) = calls w /\
   forall embed,
     fst (send_github_notification backend
            (fst (on_ready backend get_channel config self w))
            (snd (on_ready backend get_channel config self w)) embed) = false /\
     calls (snd (send_github_notification backend
                   (fst (on_ready backend get_channel config self w))
                   (snd (on_ready backend get_channel config self w)) embed))
     = calls w) /\
  (get_channel (DISCORD_CHANNEL_ID config) <> None ->
   calls (snd (on_ready backend get_channel config self w))
   = calls w ++ [(startup_embed (clock w),
                  backend (length (calls w)) (startup_embed (clock w)))] /\
   forall embed,
     (fst (send_github_notification backend
             (fst (on_ready backend get_channel config self w))
             (snd (on_ready backend get_channel config self w)) embed) = true <->
      backend (S (length (calls w))) embed = Delivered) /\
     calls (snd (send_github_notification backend
                   (fst (on_ready backend get_channel config self w))
                   (snd (on_ready backend get_channel config self w)) embed))
     = calls w ++ [(startup_embed (clock w),
                    backend (length (calls w)) (startup_embed (clock w)));
                   (embed, backend (S (length (calls w))) embed)]).
Proof.
  unfold on_ready, _send_startup_message, channel_send.
  destruct (get_channel (DISCORD_CHANNEL_ID config)) as [c|] eqn:Hc;
    cbn [target_channel logged clock calls fst snd].
  - split; [|split; [|split]]; [| | discriminate |].
    + destruct (backend (length (calls w)) (startup_embed (clock w))); reflexivity.
    + destruct (backend (length (calls w)) (startup_embed (clock w))); reflexivity.
    + intros _.
      split.
      * destruct (backend (length (calls w)) (startup_embed (clock w)));
          reflexivity.
      * intros embed. unfold send_github_notification, channel_send.
        destruct (backend (length (calls w)) (startup_embed (clock w))) eqn:Hb;
          cbn [target_channel fst snd calls logged];
          rewrite length_app; cbn [length]; rewrite Nat.add_1_r;
          destruct (backend (S (length (calls w))) embed) as [|[]] eqn:Hs;
          cbn; rewrite <- ?app_assoc; cbn; split; try reflexivity;
          split; congruence.
  - split; [reflexivity|]. split; [reflexivity|]. split; [|congruence].
    intros _. split; [reflexivity|]. intros embed. split; reflexivity.
Qed.

Lemma close_extends (backend : nat -> Embed -> send_result) (b : Bot) (w : World) :
  bot_instance (close backend b w) = bot_instance w /\
  clock (close backend b w) = clock w /\
  In (INFO, "Discord bot connection closed"%string) (log (close backend b w)) /\
  (target_channel b = None -> calls (close backend b w) = calls w) /\
  (target_channel b <> None ->
   calls (close backend b w)
   = calls w ++ [(shutdown_embed (clock w),
                  backend (length (calls w)) (shutdown_embed (clock w)))]).
Proof.
  unfold close, channel_send.
  destruct (target_channel b) as [c|].
  - destruct (backend (length (calls w)) (shutdown_embed (clock w))); cbn;
      repeat split; try congruence;
      apply in_or_app; right; now left.
  - cbn. repeat split; try congruence. apply in_or_app. right. now left.
Qed.

(** X19.  [stop_bot] closes the singleton and forgets it.  The farewell is
    attempted once when the bot has a channel and not at all otherwise, and
    the connection is closed even when the farewell fails.  Stopping twice
    is stopping once.  A task that runs after the stop creates a new bot
    without a channel and delivers nothing. *)
Theorem stop_bot_closes_and_forgets (backend : nat -> Embed -> send_result)
    (rt : Runtime) (w : World) :
  bot_instance (stop_bot backend w) = None /\
  stop_bot backend (stop_bot backend w) = stop_bot backend w /\
  (forall b, bot_instance w = Some b ->
     In (INFO, "Discord bot connection closed"%string) (log (stop_bot backend w)) /\
     (target_channel b = None -> calls (stop_bot backend w) = calls w) /\
     (target_channel b <> None ->
      calls (stop_bot backend w)
      = calls w ++ [(shutdown_embed (clock w),
                     backend (length (calls w)) (shutdown_embed (clock w)))])) /\
  (forall event_type payload,
     calls (process_github_event backend rt event_type payload (stop_bot backend w))
     = calls (stop_bot backend w)).
Proof.
  assert (Hnone : bot_instance (stop_bot backend w) = None).
  { unfold stop_bot. destruct (bot_instance w) eqn:Hb; [reflexivity | exact Hb]. }
  split; [exact Hnone|]. split; [|split].
  - unfold stop_bot at 1. now rewrite Hnone.
  - intros b Hb. unfold stop_bot. rewrite Hb.
    destruct (close_extends backend b w) as (_ & _ & Hlog & Hnocall & Hcall).
    cbn [logged without_bot log calls]. repeat split; auto.
    apply in_or_app. now left.
  - intros event_type payload. apply process_unready.
    unfold unready. now rewrite Hnone.
Qed.





(** ** Configuration *)

